(** * Provider deal state machine of go-fil-markets (storagemarket)

    A shallow embedding of the storage-market types
    (package [storagemarket]), of the provider transition table
    (package [providerstates]) and of the fake chain node used by the
    handler tests (package [testnodes]), together with the properties the
    specification states about them. *)

From Stdlib Require Import ZArith NArith String Ascii List Lia.
From stdpp Require Import base decidable countable gmap strings pretty list.
Import ListNotations.

Local Open Scope string_scope.

(** Method chaining of the Go builders: [b |> f] is [b.f]. *)
Notation "b |> f" := (f b) (at level 50, left associativity, only parsing).

(** ** Opaque identifiers of the collaborating packages *)

(** A Go [error] value that is not nil, represented by the text its
    [Error()] method returns. *)
Definition error := string.

(** [xerrors.Errorf(prefix + "%w", err).Error()]; a format with further
    verbs is written out where it is used, [%d] and [%s] of a number
    being its decimal text [pretty]. *)
Definition Errorf_w (prefix : string) (err : error) : error := prefix +:+ err.

(** [cid.Cid], [address.Address], [peer.ID] and [filestore.Path] are
    compared and copied only; they are represented by their text. *)
Module cid.
Definition Cid := string.
(** [cid.Undef], the identifier that is not defined. *)
Definition Undef : Cid := "".
End cid.

Module address.
Definition Address := string.
End address.

Module peer.
Definition ID := string.
End peer.

Module filestore.
Definition Path := string.
End filestore.

(** Package abi of the actors: [TokenAmount] is a big integer,
    [ChainEpoch] an [int64], [DealID] and [PaddedPieceSize] are [uint64]. *)
Module abi.
Definition TokenAmount := Z.
Definition ChainEpoch := Z.
Definition DealID := N.
Definition PaddedPieceSize := N.
End abi.

(** [shared.TipSetToken] is a byte string. *)
Module shared.
Definition TipSetToken := list N.
End shared.

(** Package market of the actors: [DealProposal] and
    [ClientDealProposal], with the fields the handler tests fill in. *)
Module market.

Record DealProposal := {
  PieceCID : cid.Cid;
  PieceSize : abi.PaddedPieceSize;
  Client : address.Address;
  Provider : address.Address;
  StartEpoch : abi.ChainEpoch;
  EndEpoch : abi.ChainEpoch;
  StoragePricePerEpoch : abi.TokenAmount;
  ProviderCollateral : abi.TokenAmount;
  ClientCollateral : abi.TokenAmount
}.

Record ClientDealProposal := {
  Proposal : DealProposal;
  ClientSignature : string
}.

End market.

(** ** Package storagemarket: types *)

Module storagemarket.

Inductive StorageDealStatus : Set :=
  | StorageDealUnknown
  | StorageDealProposalNotFound
  | StorageDealProposalRejected
  | StorageDealProposalAccepted
  | StorageDealStaged
  | StorageDealSealing
  | StorageDealActive
  | StorageDealFailing
  | StorageDealNotFound
  | StorageDealFundsEnsured
  | StorageDealValidating
  | StorageDealTransferring
  | StorageDealWaitingForData
  | StorageDealVerifyData
  | StorageDealEnsureProviderFunds
  | StorageDealEnsureClientFunds
  | StorageDealProviderFunding
  | StorageDealClientFunding
  | StorageDealPublish
  | StorageDealPublishing
  | StorageDealError
  | StorageDealCompleted.

(** The [iota] ordinal of a status. *)
Definition StorageDealStatus_code (s : StorageDealStatus) : N :=
  match s with
  | StorageDealUnknown => 0
  | StorageDealProposalNotFound => 1
  | StorageDealProposalRejected => 2
  | StorageDealProposalAccepted => 3
  | StorageDealStaged => 4
  | StorageDealSealing => 5
  | StorageDealActive => 6
  | StorageDealFailing => 7
  | StorageDealNotFound => 8
  | StorageDealFundsEnsured => 9
  | StorageDealValidating => 10
  | StorageDealTransferring => 11
  | StorageDealWaitingForData => 12
  | StorageDealVerifyData => 13
  | StorageDealEnsureProviderFunds => 14
  | StorageDealEnsureClientFunds => 15
  | StorageDealProviderFunding => 16
  | StorageDealClientFunding => 17
  | StorageDealPublish => 18
  | StorageDealPublishing => 19
  | StorageDealError => 20
  | StorageDealCompleted => 21
  end%N.

Definition StorageDealStatus_of_code (n : N) : StorageDealStatus :=
  match n with
  | 0 => StorageDealUnknown
  | 1 => StorageDealProposalNotFound
  | 2 => StorageDealProposalRejected
  | 3 => StorageDealProposalAccepted
  | 4 => StorageDealStaged
  | 5 => StorageDealSealing
  | 6 => StorageDealActive
  | 7 => StorageDealFailing
  | 8 => StorageDealNotFound
  | 9 => StorageDealFundsEnsured
  | 10 => StorageDealValidating
  | 11 => StorageDealTransferring
  | 12 => StorageDealWaitingForData
  | 13 => StorageDealVerifyData
  | 14 => StorageDealEnsureProviderFunds
  | 15 => StorageDealEnsureClientFunds
  | 16 => StorageDealProviderFunding
  | 17 => StorageDealClientFunding
  | 18 => StorageDealPublish
  | 19 => StorageDealPublishing
  | 20 => StorageDealError
  | _ => StorageDealCompleted
  end%N.

Lemma StorageDealStatus_code_cancel (s : StorageDealStatus) :
  StorageDealStatus_of_code (StorageDealStatus_code s) = s.
Proof. destruct s; reflexivity. Qed.

#[global] Instance StorageDealStatus_eq_dec : EqDecision StorageDealStatus.
Proof. solve_decision. Defined.

#[global] Instance StorageDealStatus_countable : Countable StorageDealStatus :=
  inj_countable' StorageDealStatus_code StorageDealStatus_of_code
    StorageDealStatus_code_cancel.

(** The field [Miner] of the ask is [AskMiner] here: [MinerDeal] has a
    field of that name too. *)
Record StorageAsk := {
  Price : abi.TokenAmount;          (* Price per GiB / Epoch *)
  MinPieceSize : abi.PaddedPieceSize;
  MaxPieceSize : abi.PaddedPieceSize;
  AskMiner : address.Address;
  Timestamp : abi.ChainEpoch;
  Expiry : abi.ChainEpoch;
  SeqNo : N
}.

Record Balance := {
  Locked : abi.TokenAmount;
  Available : abi.TokenAmount
}.

(** Node dependencies for a StorageProvider: the interface
    [StorageProviderNode], as the record of the methods the handlers
    below call. A result [(v, err)] is a sum; the plaintext of a
    signature is the proposal whose canonical encoding is signed. *)
Record StorageProviderNode := {
  GetChainHead : error + (shared.TipSetToken * abi.ChainEpoch);
  VerifySignature :
    string -> address.Address -> market.DealProposal -> shared.TipSetToken ->
    error + bool;
  GetBalance : address.Address -> shared.TipSetToken -> error + Balance
}.

Definition TTGraphsync : string := "graphsync".
Definition TTManual : string := "manual".

Record DataRef := {
  TransferType : string;
  Root : cid.Cid;
  PieceCid : option cid.Cid;
  PieceSize : N
}.

(** The embedded [market.ClientDealProposal] is the field
    [ClientDealProposal]; the pointers [AddFundsCid], [PublishCid] and
    [Ref] are options. *)
Record MinerDeal := {
  ClientDealProposal : market.ClientDealProposal;
  ProposalCid : cid.Cid;
  AddFundsCid : option cid.Cid;
  PublishCid : option cid.Cid;
  Miner : peer.ID;
  Client : peer.ID;
  State : StorageDealStatus;
  PiecePath : filestore.Path;
  MetadataPath : filestore.Path;
  ConnectionClosed : bool;
  Message : string;
  Ref : option DataRef;
  DealID : abi.DealID
}.

(** Field assignments [deal.F = v]. *)
Definition set_State (v : StorageDealStatus) (d : MinerDeal) : MinerDeal :=
  {| ClientDealProposal := ClientDealProposal d; ProposalCid := ProposalCid d;
     AddFundsCid := AddFundsCid d; PublishCid := PublishCid d;
     Miner := Miner d; Client := Client d; State := v;
     PiecePath := PiecePath d; MetadataPath := MetadataPath d;
     ConnectionClosed := ConnectionClosed d; Message := Message d;
     Ref := Ref d; DealID := DealID d |}.

Definition set_Message (v : string) (d : MinerDeal) : MinerDeal :=
  {| ClientDealProposal := ClientDealProposal d; ProposalCid := ProposalCid d;
     AddFundsCid := AddFundsCid d; PublishCid := PublishCid d;
     Miner := Miner d; Client := Client d; State := State d;
     PiecePath := PiecePath d; MetadataPath := MetadataPath d;
     ConnectionClosed := ConnectionClosed d; Message := v;
     Ref := Ref d; DealID := DealID d |}.

Definition set_PiecePath (v : filestore.Path) (d : MinerDeal) : MinerDeal :=
  {| ClientDealProposal := ClientDealProposal d; ProposalCid := ProposalCid d;
     AddFundsCid := AddFundsCid d; PublishCid := PublishCid d;
     Miner := Miner d; Client := Client d; State := State d;
     PiecePath := v; MetadataPath := MetadataPath d;
     ConnectionClosed := ConnectionClosed d; Message := Message d;
     Ref := Ref d; DealID := DealID d |}.

Definition set_MetadataPath (v : filestore.Path) (d : MinerDeal) : MinerDeal :=
  {| ClientDealProposal := ClientDealProposal d; ProposalCid := ProposalCid d;
     AddFundsCid := AddFundsCid d; PublishCid := PublishCid d;
     Miner := Miner d; Client := Client d; State := State d;
     PiecePath := PiecePath d; MetadataPath := v;
     ConnectionClosed := ConnectionClosed d; Message := Message d;
     Ref := Ref d; DealID := DealID d |}.

Definition set_AddFundsCid (v : option cid.Cid) (d : MinerDeal) : MinerDeal :=
  {| ClientDealProposal := ClientDealProposal d; ProposalCid := ProposalCid d;
     AddFundsCid := v; PublishCid := PublishCid d;
     Miner := Miner d; Client := Client d; State := State d;
     PiecePath := PiecePath d; MetadataPath := MetadataPath d;
     ConnectionClosed := ConnectionClosed d; Message := Message d;
     Ref := Ref d; DealID := DealID d |}.

Definition set_PublishCid (v : option cid.Cid) (d : MinerDeal) : MinerDeal :=
  {| ClientDealProposal := ClientDealProposal d; ProposalCid := ProposalCid d;
     AddFundsCid := AddFundsCid d; PublishCid := v;
     Miner := Miner d; Client := Client d; State := State d;
     PiecePath := PiecePath d; MetadataPath := MetadataPath d;
     ConnectionClosed := ConnectionClosed d; Message := Message d;
     Ref := Ref d; DealID := DealID d |}.

Definition set_ConnectionClosed (v : bool) (d : MinerDeal) : MinerDeal :=
  {| ClientDealProposal := ClientDealProposal d; ProposalCid := ProposalCid d;
     AddFundsCid := AddFundsCid d; PublishCid := PublishCid d;
     Miner := Miner d; Client := Client d; State := State d;
     PiecePath := PiecePath d; MetadataPath := MetadataPath d;
     ConnectionClosed := v; Message := Message d;
     Ref := Ref d; DealID := DealID d |}.

Definition set_DealID (v : abi.DealID) (d : MinerDeal) : MinerDeal :=
  {| ClientDealProposal := ClientDealProposal d; ProposalCid := ProposalCid d;
     AddFundsCid := AddFundsCid d; PublishCid := PublishCid d;
     Miner := Miner d; Client := Client d; State := State d;
     PiecePath := PiecePath d; MetadataPath := MetadataPath d;
     ConnectionClosed := ConnectionClosed d; Message := Message d;
     Ref := Ref d; DealID := v |}.

Inductive ProviderEvent : Set :=
  | ProviderEventOpen
  | ProviderEventNodeErrored
  | ProviderEventDealRejected
  | ProviderEventDealAccepted
  | ProviderEventWaitingForManualData
  | ProviderEventInsufficientFunds
  | ProviderEventFundingInitiated
  | ProviderEventFunded
  | ProviderEventDataTransferFailed
  | ProviderEventDataTransferInitiated
  | ProviderEventDataTransferCompleted
  | ProviderEventManualDataReceived
  | ProviderEventGeneratePieceCIDFailed
  | ProviderEventVerifiedData
  | ProviderEventSendResponseFailed
  | ProviderEventDealPublishInitiated
  | ProviderEventDealPublished
  | ProviderEventDealPublishError
  | ProviderEventFileStoreErrored
  | ProviderEventDealHandoffFailed
  | ProviderEventDealHandedOff
  | ProviderEventDealActivationFailed
  | ProviderEventUnableToLocatePiece
  | ProviderEventDealActivated
  | ProviderEventPieceStoreErrored
  | ProviderEventReadMetadataErrored
  | ProviderEventDealCompleted
  | ProviderEventFailed
  | ProviderEventRestart.

(** The [iota] ordinal of an event. *)
Definition ProviderEvent_code (e : ProviderEvent) : N :=
  match e with
  | ProviderEventOpen => 0
  | ProviderEventNodeErrored => 1
  | ProviderEventDealRejected => 2
  | ProviderEventDealAccepted => 3
  | ProviderEventWaitingForManualData => 4
  | ProviderEventInsufficientFunds => 5
  | ProviderEventFundingInitiated => 6
  | ProviderEventFunded => 7
  | ProviderEventDataTransferFailed => 8
  | ProviderEventDataTransferInitiated => 9
  | ProviderEventDataTransferCompleted => 10
  | ProviderEventManualDataReceived => 11
  | ProviderEventGeneratePieceCIDFailed => 12
  | ProviderEventVerifiedData => 13
  | ProviderEventSendResponseFailed => 14
  | ProviderEventDealPublishInitiated => 15
  | ProviderEventDealPublished => 16
  | ProviderEventDealPublishError => 17
  | ProviderEventFileStoreErrored => 18
  | ProviderEventDealHandoffFailed => 19
  | ProviderEventDealHandedOff => 20
  | ProviderEventDealActivationFailed => 21
  | ProviderEventUnableToLocatePiece => 22
  | ProviderEventDealActivated => 23
  | ProviderEventPieceStoreErrored => 24
  | ProviderEventReadMetadataErrored => 25
  | ProviderEventDealCompleted => 26
  | ProviderEventFailed => 27
  | ProviderEventRestart => 28
  end%N.

Definition ProviderEvent_of_code (n : N) : ProviderEvent :=
  match n with
  | 0 => ProviderEventOpen
  | 1 => ProviderEventNodeErrored
  | 2 => ProviderEventDealRejected
  | 3 => ProviderEventDealAccepted
  | 4 => ProviderEventWaitingForManualData
  | 5 => ProviderEventInsufficientFunds
  | 6 => ProviderEventFundingInitiated
  | 7 => ProviderEventFunded
  | 8 => ProviderEventDataTransferFailed
  | 9 => ProviderEventDataTransferInitiated
  | 10 => ProviderEventDataTransferCompleted
  | 11 => ProviderEventManualDataReceived
  | 12 => ProviderEventGeneratePieceCIDFailed
  | 13 => ProviderEventVerifiedData
  | 14 => ProviderEventSendResponseFailed
  | 15 => ProviderEventDealPublishInitiated
  | 16 => ProviderEventDealPublished
  | 17 => ProviderEventDealPublishError
  | 18 => ProviderEventFileStoreErrored
  | 19 => ProviderEventDealHandoffFailed
  | 20 => ProviderEventDealHandedOff
  | 21 => ProviderEventDealActivationFailed
  | 22 => ProviderEventUnableToLocatePiece
  | 23 => ProviderEventDealActivated
  | 24 => ProviderEventPieceStoreErrored
  | 25 => ProviderEventReadMetadataErrored
  | 26 => ProviderEventDealCompleted
  | 27 => ProviderEventFailed
  | _ => ProviderEventRestart
  end%N.

Lemma ProviderEvent_code_cancel (e : ProviderEvent) :
  ProviderEvent_of_code (ProviderEvent_code e) = e.
Proof. destruct e; reflexivity. Qed.

#[global] Instance ProviderEvent_eq_dec : EqDecision ProviderEvent.
Proof. solve_decision. Defined.

#[global] Instance ProviderEvent_countable : Countable ProviderEvent :=
  inj_countable' ProviderEvent_code ProviderEvent_of_code ProviderEvent_code_cancel.

(** [ProviderEvents] maps provider event codes to string names. *)
Definition ProviderEvents : gmap ProviderEvent string :=
  list_to_map [
    (ProviderEventOpen, "ProviderEventOpen");
    (ProviderEventNodeErrored, "ProviderEventNodeErrored");
    (ProviderEventDealRejected, "ProviderEventDealRejected");
    (ProviderEventDealAccepted, "ProviderEventDealAccepted");
    (ProviderEventWaitingForManualData, "ProviderEventWaitingForManualData");
    (ProviderEventInsufficientFunds, "ProviderEventInsufficientFunds");
    (ProviderEventFundingInitiated, "ProviderEventFundingInitiated");
    (ProviderEventFunded, "ProviderEventFunded");
    (ProviderEventDataTransferFailed, "ProviderEventDataTransferFailed");
    (ProviderEventDataTransferInitiated, "ProviderEventDataTransferInitiated");
    (ProviderEventDataTransferCompleted, "ProviderEventDataTransferCompleted");
    (ProviderEventManualDataReceived, "ProviderEventManualDataReceived");
    (ProviderEventGeneratePieceCIDFailed, "ProviderEventGeneratePieceCIDFailed");
    (ProviderEventVerifiedData, "ProviderEventVerifiedData");
    (ProviderEventSendResponseFailed, "ProviderEventSendResponseFailed");
    (ProviderEventDealPublishInitiated, "ProviderEventDealPublishInitiated");
    (ProviderEventDealPublished, "ProviderEventDealPublished");
    (ProviderEventDealPublishError, "ProviderEventDealPublishError");
    (ProviderEventFileStoreErrored, "ProviderEventFileStoreErrored");
    (ProviderEventDealHandoffFailed, "ProviderEventDealHandoffFailed");
    (ProviderEventDealHandedOff, "ProviderEventDealHandedOff");
    (ProviderEventDealActivationFailed, "ProviderEventDealActivationFailed");
    (ProviderEventUnableToLocatePiece, "ProviderEventUnableToLocatePiece");
    (ProviderEventDealActivated, "ProviderEventDealActivated");
    (ProviderEventPieceStoreErrored, "ProviderEventPieceStoreErrored");
    (ProviderEventReadMetadataErrored, "ProviderEventReadMetadataErrored");
    (ProviderEventDealCompleted, "ProviderEventDealCompleted");
    (ProviderEventFailed, "ProviderEventFailed");
    (ProviderEventRestart, "ProviderEventRestart")
  ].

Inductive ClientEvent : Set :=
  | ClientEventOpen
  | ClientEventEnsureFundsFailed
  | ClientEventFundingInitiated
  | ClientEventFundsEnsured
  | ClientEventWriteProposalFailed
  | ClientEventDealProposed
  | ClientEventDealStreamLookupErrored
  | ClientEventReadResponseFailed
  | ClientEventResponseVerificationFailed
  | ClientEventResponseDealDidNotMatch
  | ClientEventStreamCloseError
  | ClientEventDealRejected
  | ClientEventDealAccepted
  | ClientEventDealPublishFailed
  | ClientEventDealPublished
  | ClientEventDealActivationFailed
  | ClientEventDealActivated
  | ClientEventFailed
  | ClientEventRestart.

(** The [iota] ordinal of an event. *)
Definition ClientEvent_code (e : ClientEvent) : N :=
  match e with
  | ClientEventOpen => 0
  | ClientEventEnsureFundsFailed => 1
  | ClientEventFundingInitiated => 2
  | ClientEventFundsEnsured => 3
  | ClientEventWriteProposalFailed => 4
  | ClientEventDealProposed => 5
  | ClientEventDealStreamLookupErrored => 6
  | ClientEventReadResponseFailed => 7
  | ClientEventResponseVerificationFailed => 8
  | ClientEventResponseDealDidNotMatch => 9
  | ClientEventStreamCloseError => 10
  | ClientEventDealRejected => 11
  | ClientEventDealAccepted => 12
  | ClientEventDealPublishFailed => 13
  | ClientEventDealPublished => 14
  | ClientEventDealActivationFailed => 15
  | ClientEventDealActivated => 16
  | ClientEventFailed => 17
  | ClientEventRestart => 18
  end%N.

Definition ClientEvent_of_code (n : N) : ClientEvent :=
  match n with
  | 0 => ClientEventOpen
  | 1 => ClientEventEnsureFundsFailed
  | 2 => ClientEventFundingInitiated
  | 3 => ClientEventFundsEnsured
  | 4 => ClientEventWriteProposalFailed
  | 5 => ClientEventDealProposed
  | 6 => ClientEventDealStreamLookupErrored
  | 7 => ClientEventReadResponseFailed
  | 8 => ClientEventResponseVerificationFailed
  | 9 => ClientEventResponseDealDidNotMatch
  | 10 => ClientEventStreamCloseError
  | 11 => ClientEventDealRejected
  | 12 => ClientEventDealAccepted
  | 13 => ClientEventDealPublishFailed
  | 14 => ClientEventDealPublished
  | 15 => ClientEventDealActivationFailed
  | 16 => ClientEventDealActivated
  | 17 => ClientEventFailed
  | _ => ClientEventRestart
  end%N.

Lemma ClientEvent_code_cancel (e : ClientEvent) :
  ClientEvent_of_code (ClientEvent_code e) = e.
Proof. destruct e; reflexivity. Qed.

#[global] Instance ClientEvent_eq_dec : EqDecision ClientEvent.
Proof. solve_decision. Defined.

#[global] Instance ClientEvent_countable : Countable ClientEvent :=
  inj_countable' ClientEvent_code ClientEvent_of_code ClientEvent_code_cancel.

(** [ClientEvents] maps client event codes to string names. *)
Definition ClientEvents : gmap ClientEvent string :=
  list_to_map [
    (ClientEventOpen, "ClientEventOpen");
    (ClientEventEnsureFundsFailed, "ClientEventEnsureFundsFailed");
    (ClientEventFundingInitiated, "ClientEventFundingInitiated");
    (ClientEventFundsEnsured, "ClientEventFundsEnsured");
    (ClientEventWriteProposalFailed, "ClientEventWriteProposalFailed");
    (ClientEventDealProposed, "ClientEventDealProposed");
    (ClientEventDealStreamLookupErrored, "ClientEventDealStreamLookupErrored");
    (ClientEventReadResponseFailed, "ClientEventReadResponseFailed");
    (ClientEventResponseVerificationFailed, "ClientEventResponseVerificationFailed");
    (ClientEventResponseDealDidNotMatch, "ClientEventResponseDealDidNotMatch");
    (ClientEventStreamCloseError, "ClientEventStreamCloseError");
    (ClientEventDealRejected, "ClientEventDealRejected");
    (ClientEventDealAccepted, "ClientEventDealAccepted");
    (ClientEventDealPublishFailed, "ClientEventDealPublishFailed");
    (ClientEventDealPublished, "ClientEventDealPublished");
    (ClientEventDealActivationFailed, "ClientEventDealActivationFailed");
    (ClientEventDealActivated, "ClientEventDealActivated");
    (ClientEventFailed, "ClientEventFailed")
  ].

(** [DealStates] maps StorageDealStatus codes to string names. *)
Definition DealStates : gmap StorageDealStatus string :=
  list_to_map [
    (StorageDealUnknown, "StorageDealUnknown");
    (StorageDealProposalNotFound, "StorageDealProposalNotFound");
    (StorageDealProposalRejected, "StorageDealProposalRejected");
    (StorageDealProposalAccepted, "StorageDealProposalAccepted");
    (StorageDealStaged, "StorageDealStaged");
    (StorageDealSealing, "StorageDealSealing");
    (StorageDealActive, "StorageDealActive");
    (StorageDealFailing, "StorageDealFailing");
    (StorageDealNotFound, "StorageDealNotFound");
    (StorageDealFundsEnsured, "StorageDealFundsEnsured");
    (StorageDealValidating, "StorageDealValidating");
    (StorageDealTransferring, "StorageDealTransferring");
    (StorageDealWaitingForData, "StorageDealWaitingForData");
    (StorageDealVerifyData, "StorageDealVerifyData");
    (StorageDealEnsureProviderFunds, "StorageDealEnsureProviderFunds");
    (StorageDealEnsureClientFunds, "StorageDealEnsureClientFunds");
    (StorageDealProviderFunding, "StorageDealProviderFunding");
    (StorageDealClientFunding, "StorageDealClientFunding");
    (StorageDealPublish, "StorageDealPublish");
    (StorageDealPublishing, "StorageDealPublishing");
    (StorageDealError, "StorageDealError");
    (StorageDealCompleted, "StorageDealCompleted")
  ].

(** [StorageAskOption] allows custom configuration of a storage ask: a
    function that assigns fields of the ask it is given. The two options
    [MinPieceSize] and [MaxPieceSize] of the source are
    [option_MinPieceSize] and [option_MaxPieceSize] here, the names
    being those of the fields. *)
Definition StorageAskOption : Type := StorageAsk -> StorageAsk.

Definition option_MinPieceSize (minPieceSize : abi.PaddedPieceSize)
  : StorageAskOption :=
  fun sa =>
    {| Price := Price sa; MinPieceSize := minPieceSize;
       MaxPieceSize := MaxPieceSize sa; AskMiner := AskMiner sa;
       Timestamp := Timestamp sa; Expiry := Expiry sa; SeqNo := SeqNo sa |}.

Definition option_MaxPieceSize (maxPieceSize : abi.PaddedPieceSize)
  : StorageAskOption :=
  fun sa =>
    {| Price := Price sa; MinPieceSize := MinPieceSize sa;
       MaxPieceSize := maxPieceSize; AskMiner := AskMiner sa;
       Timestamp := Timestamp sa; Expiry := Expiry sa; SeqNo := SeqNo sa |}.

(** The options of a call [AddAsk(price, duration, options...)] are
    applied in order. *)
Definition applyOptions (options : list StorageAskOption) (sa : StorageAsk)
  : StorageAsk :=
  fold_left (fun sa option => option sa) options sa.

(** [StorageDeal] is a local combination of a proposal and a current
    deal state; [market.DealState] of the actors is a parameter. *)
Record StorageDeal (DealState : Type) := {
  DealProposal : market.DealProposal;
  DealState_ : DealState
}.
Arguments DealProposal {DealState} _.
Arguments DealState_ {DealState} _.

End storagemarket.

(** ** Package network: the signed response *)

Module network.

(** Modelled from the spec: package network is not among the sources;
    [Response] is the signed response a provider sends to the client
    (sections 4.3 and 4.4), carrying the state and the message of the
    record, its proposal identifier and, after publication, the publish
    message identifier. *)
Record Response := {
  State : storagemarket.StorageDealStatus;
  Message : string;
  Proposal : cid.Cid;
  PublishMessage : option cid.Cid
}.

End network.

(** ** Package fsm of go-statemachine

    The state-machine library is an external dependency of the
    repository. Its event builders and its event processor are embedded
    here as the transition tables use them and as section 4.2 of the
    specification states their contract: an event names its source
    states (or any state) and its destination, an illegal event is
    rejected with an invalid-transition diagnostic and leaves the record
    as it is, an accepted event runs its action and then assigns the new
    state. *)

Module fsm.

Section fsm.

Context {EventName StateKey StateType Arg : Type}.
Context `{Countable EventName} `{Countable StateKey}.

(** The field of the record named by the state key field ("State"). *)
Variable getState : StateType -> StateKey.
Variable setState : StateKey -> StateType -> StateType.

(** An action receives the record and the arguments of the event
    ([...interface{}]); [None] says that the arguments do not have the
    number or the types of the action's parameters. *)
Definition ActionFunc : Type := StateType -> list Arg -> option StateType.

(** Source [None] is any state ([FromAny]); destination [None] is no
    change ([ToNoChange]). *)
Record EventBuilder : Type := {
  name : EventName;
  action : option ActionFunc;
  transitionsSoFar : gmap (option StateKey) (option StateKey)
}.

Record TransitionToBuilder : Type := {
  to_name : EventName;
  to_action : option ActionFunc;
  to_transitionsSoFar : gmap (option StateKey) (option StateKey);
  nextFrom : list (option StateKey)
}.

Definition Event (n : EventName) : EventBuilder :=
  {| name := n; action := None; transitionsSoFar := ∅ |}.

Definition From (s : StateKey) (e : EventBuilder) : TransitionToBuilder :=
  {| to_name := name e; to_action := action e;
     to_transitionsSoFar := transitionsSoFar e; nextFrom := [Some s] |}.

Definition FromAny (e : EventBuilder) : TransitionToBuilder :=
  {| to_name := name e; to_action := action e;
     to_transitionsSoFar := transitionsSoFar e; nextFrom := [None] |}.

Definition FromMany (sources : list StateKey) (e : EventBuilder)
  : TransitionToBuilder :=
  {| to_name := name e; to_action := action e;
     to_transitionsSoFar := transitionsSoFar e;
     nextFrom := map Some sources |}.

Definition to_destination (dst : option StateKey) (t : TransitionToBuilder)
  : EventBuilder :=
  {| name := to_name t; action := to_action t;
     transitionsSoFar :=
       fold_left (fun m src => <[src := dst]> m) (nextFrom t)
                 (to_transitionsSoFar t) |}.

Definition To (dst : StateKey) (t : TransitionToBuilder) : EventBuilder :=
  to_destination (Some dst) t.

Definition ToNoChange (t : TransitionToBuilder) : EventBuilder :=
  to_destination None t.

Definition Action (f : ActionFunc) (e : EventBuilder) : EventBuilder :=
  {| name := name e; action := Some f;
     transitionsSoFar := transitionsSoFar e |}.

Definition Events : Type := list EventBuilder.

Record eventProcessor : Type := {
  callbacks : gmap EventName (option ActionFunc);
  transitionsMap : gmap (EventName * option StateKey) (option StateKey)
}.

Inductive Diagnostic : Type :=
  | DuplicateEventName (e : EventName)
  | UnknownEvent (e : EventName)
  | InvalidTransition (s : StateKey) (e : EventName)
  | ArgumentMismatch (e : EventName).

Definition register (ep : eventProcessor) (evt : EventBuilder)
  : eventProcessor :=
  {| callbacks := <[name evt := action evt]> (callbacks ep);
     transitionsMap :=
       map_fold (fun src dst m => <[(name evt, src) := dst]> m)
                (transitionsMap ep) (transitionsSoFar evt) |}.

(** [NewEventProcessor] registers the events in order and refuses a name
    declared twice. *)
Fixpoint registerAll (ep : eventProcessor) (events : Events)
  : Diagnostic + eventProcessor :=
  match events with
  | [] => inr ep
  | evt :: rest =>
      match callbacks ep !! name evt with
      | Some _ => inl (DuplicateEventName (name evt))
      | None => registerAll (register ep evt) rest
      end
  end.

Definition NewEventProcessor (events : Events) : Diagnostic + eventProcessor :=
  registerAll {| callbacks := ∅; transitionsMap := ∅ |} events.

(** An event as it is queued: its name and its arguments. *)
Definition fsmEvent : Type := EventName * list Arg.

(** [Apply] looks the transition up for the current state, falls back on
    the transition declared for any state, runs the action and assigns
    the destination. *)
Definition Apply (ep : eventProcessor) (evt : fsmEvent) (user : StateType)
  : Diagnostic + StateType :=
  let currentState := getState user in
  let found :=
    match transitionsMap ep !! (evt.1, Some currentState) with
    | Some destination => Some destination
    | None => transitionsMap ep !! (evt.1, None)
    end in
  match found with
  | None => inl (InvalidTransition currentState evt.1)
  | Some destination =>
      match callbacks ep !! evt.1 with
      | None => inl (UnknownEvent evt.1)
      | Some cb =>
          let called :=
            match cb with
            | Some f => f user evt.2
            | None => match evt.2 with [] => Some user | _ => None end
            end in
          match called with
          | None => inl (ArgumentMismatch evt.1)
          | Some user' =>
              inr match destination with
                  | Some dst => setState dst user'
                  | None => user'
                  end
          end
      end
  end.

(** Firing an event against a record: a rejected event is dropped with
    its diagnostic and the record is not modified. *)
Definition fire (ep : eventProcessor) (evt : fsmEvent) (user : StateType)
  : StateType * option Diagnostic :=
  match Apply ep evt user with
  | inr user' => (user', None)
  | inl diag => (user, Some diag)
  end.

(** [IsTerminated]: the record's state is one of the finality states. *)
Definition IsTerminated (finalityStates : list StateKey) (user : StateType)
  : bool :=
  existsb (fun finalityState => bool_decide (finalityState = getState user))
          finalityStates.

End fsm.

End fsm.

(** ** Package providerstates: the provider transition table *)

Module providerstates.

Import storagemarket.

(** The values passed as arguments of provider events. *)
Inductive Arg : Type :=
  | ArgError (err : error)
  | ArgPath (path : filestore.Path)
  | ArgCid (c : cid.Cid)
  | ArgDealID (dealID : abi.DealID).

Definition ProviderAction : Type :=
  fsm.ActionFunc (StateType := MinerDeal) (Arg := Arg).

(** [ProviderEvents] are the events that can happen in a storage provider. *)
Definition ProviderEvents
  : fsm.Events (EventName := ProviderEvent) (StateKey := StorageDealStatus)
               (StateType := MinerDeal) (Arg := Arg) := [
  fsm.Event ProviderEventOpen |> fsm.From StorageDealUnknown |> fsm.To StorageDealValidating;
  fsm.Event ProviderEventNodeErrored |> fsm.FromAny |> fsm.To StorageDealFailing |>
    fsm.Action (fun (deal : MinerDeal) args =>
      match args with
      | [ArgError err] =>
          Some (deal |> set_Message (Errorf_w "error calling node: " err))
      | _ => None
      end);
  fsm.Event ProviderEventDealRejected |>
    fsm.FromMany [StorageDealValidating; StorageDealVerifyData] |> fsm.To StorageDealFailing |>
    fsm.Action (fun (deal : MinerDeal) args =>
      match args with
      | [ArgError err] =>
          Some (deal |> set_Message (Errorf_w "deal rejected: " err))
      | _ => None
      end);
  fsm.Event ProviderEventDealAccepted |>
    fsm.From StorageDealValidating |> fsm.To StorageDealProposalAccepted;
  fsm.Event ProviderEventWaitingForManualData |>
    fsm.From StorageDealProposalAccepted |> fsm.To StorageDealWaitingForData;
  fsm.Event ProviderEventDataTransferFailed |>
    fsm.FromMany [StorageDealProposalAccepted; StorageDealTransferring] |> fsm.To StorageDealFailing |>
    fsm.Action (fun (deal : MinerDeal) args =>
      match args with
      | [ArgError err] =>
          Some (deal |> set_Message (Errorf_w "error transferring data: " err))
      | _ => None
      end);
  fsm.Event ProviderEventDataTransferInitiated |>
    fsm.From StorageDealProposalAccepted |> fsm.To StorageDealTransferring;
  fsm.Event ProviderEventDataTransferCompleted |>
    fsm.From StorageDealTransferring |> fsm.To StorageDealVerifyData;
  fsm.Event ProviderEventGeneratePieceCIDFailed |>
    fsm.From StorageDealVerifyData |> fsm.To StorageDealFailing |>
    fsm.Action (fun (deal : MinerDeal) args =>
      match args with
      | [ArgError err] =>
          Some (deal |> set_Message (Errorf_w "generating piece committment: " err))
      | _ => None
      end);
  fsm.Event ProviderEventVerifiedData |>
    fsm.FromMany [StorageDealVerifyData; StorageDealWaitingForData] |> fsm.To StorageDealEnsureProviderFunds |>
    fsm.Action (fun (deal : MinerDeal) args =>
      match args with
      | [ArgPath path; ArgPath metadataPath] =>
          Some (deal |> set_PiecePath path |> set_MetadataPath metadataPath)
      | _ => None
      end);
  fsm.Event ProviderEventFundingInitiated |>
    fsm.From StorageDealEnsureProviderFunds |> fsm.To StorageDealProviderFunding |>
    fsm.Action (fun (deal : MinerDeal) args =>
      match args with
      | [ArgCid mcid] => Some (deal |> set_AddFundsCid (Some mcid))
      | _ => None
      end);
  fsm.Event ProviderEventFunded |>
    fsm.FromMany [StorageDealProviderFunding; StorageDealEnsureProviderFunds] |> fsm.To StorageDealPublish;
  fsm.Event ProviderEventDealPublishInitiated |>
    fsm.From StorageDealPublish |> fsm.To StorageDealPublishing |>
    fsm.Action (fun (deal : MinerDeal) args =>
      match args with
      | [ArgCid publishCid] => Some (deal |> set_PublishCid (Some publishCid))
      | _ => None
      end);
  fsm.Event ProviderEventDealPublishError |>
    fsm.From StorageDealPublishing |> fsm.To StorageDealFailing |>
    fsm.Action (fun (deal : MinerDeal) args =>
      match args with
      | [ArgError err] =>
          Some (deal |> set_Message (Errorf_w "PublishStorageDeal error: " err))
      | _ => None
      end);
  fsm.Event ProviderEventSendResponseFailed |>
    fsm.FromMany [StorageDealPublishing; StorageDealFailing] |> fsm.To StorageDealError |>
    fsm.Action (fun (deal : MinerDeal) args =>
      match args with
      | [ArgError err] =>
          Some (deal |> set_Message (Errorf_w "sending response to deal: " err))
      | _ => None
      end);
  fsm.Event ProviderEventDealPublished |>
    fsm.From StorageDealPublishing |> fsm.To StorageDealStaged |>
    fsm.Action (fun (deal : MinerDeal) args =>
      match args with
      | [ArgDealID dealID] =>
          Some (deal |> set_ConnectionClosed true |> set_DealID dealID)
      | _ => None
      end);
  fsm.Event ProviderEventFileStoreErrored |>
    fsm.FromMany [StorageDealStaged; StorageDealSealing; StorageDealActive] |> fsm.To StorageDealFailing |>
    fsm.Action (fun (deal : MinerDeal) args =>
      match args with
      | [ArgError err] =>
          Some (deal |> set_Message (Errorf_w "accessing file store: " err))
      | _ => None
      end);
  fsm.Event ProviderEventDealHandoffFailed |> fsm.From StorageDealStaged |> fsm.To StorageDealFailing |>
    fsm.Action (fun (deal : MinerDeal) args =>
      match args with
      | [ArgError err] =>
          Some (deal |> set_Message (Errorf_w "handing off deal to node: " err))
      | _ => None
      end);
  fsm.Event ProviderEventDealHandedOff |> fsm.From StorageDealStaged |> fsm.To StorageDealSealing;
  fsm.Event ProviderEventDealActivationFailed |>
    fsm.From StorageDealSealing |> fsm.To StorageDealFailing |>
    fsm.Action (fun (deal : MinerDeal) args =>
      match args with
      | [ArgError err] =>
          Some (deal |> set_Message (Errorf_w "error activating deal: " err))
      | _ => None
      end);
  fsm.Event ProviderEventDealActivated |> fsm.From StorageDealSealing |> fsm.To StorageDealActive;
  fsm.Event ProviderEventPieceStoreErrored |> fsm.From StorageDealActive |> fsm.To StorageDealFailing |>
    fsm.Action (fun (deal : MinerDeal) args =>
      match args with
      | [ArgError err] =>
          Some (deal |> set_Message (Errorf_w "accessing piece store: " err))
      | _ => None
      end);
  fsm.Event ProviderEventDealCompleted |> fsm.From StorageDealActive |> fsm.To StorageDealCompleted;
  fsm.Event ProviderEventUnableToLocatePiece |> fsm.From StorageDealActive |> fsm.To StorageDealFailing |>
    fsm.Action (fun (deal : MinerDeal) args =>
      match args with
      | [ArgDealID dealID; ArgError err] =>
          Some (deal |> set_Message
                  ("locating piece for deal ID " +:+ pretty (DealID deal)
                     +:+ " in sector: " +:+ err))
      | _ => None
      end);
  fsm.Event ProviderEventReadMetadataErrored |> fsm.From StorageDealActive |> fsm.To StorageDealFailing |>
    fsm.Action (fun (deal : MinerDeal) args =>
      match args with
      | [ArgError err] =>
          Some (deal |> set_Message (Errorf_w "error reading piece metadata: " err))
      | _ => None
      end);
  fsm.Event ProviderEventFailed |> fsm.From StorageDealFailing |> fsm.To StorageDealError
].

Definition ProviderFinalityStates : list StorageDealStatus := [
  StorageDealError;
  StorageDealCompleted
].

(** The event processor of the provider, [fsm.NewEventProcessor(
    storagemarket.MinerDeal{}, "State", ProviderEvents)], and the
    application of one event to a deal record. *)
Definition eventProcessor := fsm.NewEventProcessor ProviderEvents.

Definition Apply (evt : ProviderEvent * list Arg) (deal : MinerDeal)
  : fsm.Diagnostic + MinerDeal :=
  match eventProcessor with
  | inr ep => fsm.Apply State set_State ep evt deal
  | inl diag => inl diag
  end.

(** The two look-ups of [Apply] on the provider's processor. *)
Definition destinationOf (n : ProviderEvent) (s : StorageDealStatus)
  : option (option StorageDealStatus) :=
  match eventProcessor with
  | inr ep =>
      match fsm.transitionsMap ep !! (n, Some s) with
      | Some destination => Some destination
      | None => fsm.transitionsMap ep !! (n, None)
      end
  | inl _ => None
  end.

Definition actionOf (n : ProviderEvent) : option (option ProviderAction) :=
  match eventProcessor with
  | inr ep => fsm.callbacks ep !! n
  | inl _ => None
  end.

(** The call of the action of event [n]; an event without an action
    takes no argument. *)
Definition callAction (n : ProviderEvent) (deal : MinerDeal) (args : list Arg)
  : option (option MinerDeal) :=
  match actionOf n with
  | None => None
  | Some (Some f) => Some (f deal args)
  | Some None => Some match args with [] => Some deal | _ => None end
  end.

Definition fire (evt : ProviderEvent * list Arg) (deal : MinerDeal)
  : MinerDeal * option fsm.Diagnostic :=
  match Apply evt deal with
  | inr deal' => (deal', None)
  | inl diag => (deal, Some diag)
  end.

Definition IsTerminated (deal : MinerDeal) : bool :=
  fsm.IsTerminated State ProviderFinalityStates deal.

(** The events fired against a record one after the other; a rejected
    event is dropped. [visited] collects the states the record enters,
    the latest first. *)
Fixpoint run (visited : list StorageDealStatus) (deal : MinerDeal)
    (evts : list (ProviderEvent * list Arg))
  : list StorageDealStatus * MinerDeal :=
  match evts with
  | [] => (visited, deal)
  | evt :: rest =>
      match Apply evt deal with
      | inr deal' => run (State deal' :: visited) deal' rest
      | inl _ => run visited deal rest
      end
  end.

(** What holds of the states a record has entered and of its message. *)
Definition message_invariant (visited : list StorageDealStatus)
    (deal : MinerDeal) : Prop :=
  (Message deal <> "" <->
     StorageDealFailing ∈ visited \/ StorageDealError ∈ visited)
  /\ (State deal = StorageDealFailing -> StorageDealFailing ∈ visited)
  /\ (State deal = StorageDealError -> StorageDealError ∈ visited).

(** [ProviderStateEntryFuncs] are the handlers for different states in a
    storage client; a handler is represented by its name. *)
Definition ProviderStateEntryFuncs : gmap StorageDealStatus string :=
  list_to_map [
    (StorageDealValidating, "ValidateDealProposal");
    (StorageDealProposalAccepted, "TransferData");
    (StorageDealVerifyData, "VerifyData");
    (StorageDealEnsureProviderFunds, "EnsureProviderFunds");
    (StorageDealProviderFunding, "WaitForFunding");
    (StorageDealPublish, "PublishDeal");
    (StorageDealPublishing, "WaitForPublish");
    (StorageDealStaged, "HandoffDeal");
    (StorageDealSealing, "VerifyDealActivated");
    (StorageDealActive, "RecordPieceInfo");
    (StorageDealFailing, "FailDeal")
  ].

(** The place of a state in the life of a provider deal, for the
    statement that the table never moves a record backward. The states
    of the client side, which the table never enters, are at 0. *)
Definition lifecycleRank (s : StorageDealStatus) : nat :=
  match s with
  | StorageDealValidating => 1
  | StorageDealProposalAccepted => 2
  | StorageDealTransferring => 3
  | StorageDealWaitingForData => 3
  | StorageDealVerifyData => 4
  | StorageDealEnsureProviderFunds => 5
  | StorageDealProviderFunding => 6
  | StorageDealPublish => 7
  | StorageDealPublishing => 8
  | StorageDealStaged => 9
  | StorageDealSealing => 10
  | StorageDealActive => 11
  | StorageDealCompleted => 12
  | StorageDealFailing => 13
  | StorageDealError => 14
  | _ => 0
  end.

(** The states of a failed deal. *)
Definition failed (s : StorageDealStatus) : bool :=
  match s with
  | StorageDealFailing | StorageDealError => true
  | _ => false
  end.

(** The states every deal goes through on its way to
    [StorageDealCompleted], in order; between them a deal is transferred
    or waits for its data, has its data verified or not, and waits for
    its funding or not. *)
Definition pipeline : list StorageDealStatus := [
  StorageDealValidating; StorageDealProposalAccepted;
  StorageDealEnsureProviderFunds; StorageDealPublish; StorageDealPublishing;
  StorageDealStaged; StorageDealSealing; StorageDealActive;
  StorageDealCompleted
].

(** What holds of a record that has not failed, and of the states it
    has entered. *)
Definition healthy_invariant (message : string)
    (visited : list StorageDealStatus) (deal : MinerDeal) : Prop :=
  failed (State deal) = false ->
  Message deal = message
  /\ (forall m, In m pipeline ->
        lifecycleRank m <= lifecycleRank (State deal) -> m ∈ visited)
  /\ (9 <= lifecycleRank (State deal) -> ConnectionClosed deal = true)
  /\ (8 <= lifecycleRank (State deal) -> is_Some (PublishCid deal)).

(** The events accepted among those fired against a record, in order. *)
Fixpoint accepted (deal : MinerDeal) (evts : list (ProviderEvent * list Arg))
  : list (ProviderEvent * list Arg) :=
  match evts with
  | [] => []
  | evt :: rest =>
      match Apply evt deal with
      | inr deal' => evt :: accepted deal' rest
      | inl _ => accepted deal rest
      end
  end.

(** *** State entry functions

    provider_states.go, which holds the handlers, is not among the
    sources; the two handlers the properties below are about are modelled
    from section 4.3 of the specification, with the messages the handler
    tests assert. *)

(** Modelled from the spec: the interface [ProviderDealEnvironment] of
    provider_states.go (not among the sources), with the capabilities of
    section 4.4 that [ValidateDealProposal] and [FailDeal] consume; the
    [fakeEnvironment] of the tests implements it. A nil error is [None]. *)
Record ProviderDealEnvironment := {
  Address : address.Address;
  Node : StorageProviderNode;
  Ask : StorageAsk;
  SendSignedResponse : network.Response -> option error;
  TagConnection : cid.Cid -> option error;
  DealAcceptanceBuffer : abi.ChainEpoch
}.

(** The calls a handler makes that act on the outside world, in order. *)
Inductive Call : Type :=
  | CallSendSignedResponse (response : network.Response)
  | CallTagConnection (proposalCid : cid.Cid)
  | CallDelete (path : filestore.Path).

(** What a handler does: its calls, and the event it triggers. *)
Definition Handled : Type := list Call * (ProviderEvent * list Arg).

Definition Trigger (n : ProviderEvent) (args : list Arg) : Handled :=
  ([], (n, args)).

(** Modelled from the spec: the client lockup a proposal requires
    ("required_client_lockup"), the client collateral plus the storage
    fee of the whole duration; the method of the actors' proposal is not
    among the sources. *)
Definition ClientBalanceRequirement (p : market.DealProposal)
  : abi.TokenAmount :=
  (market.ClientCollateral p
   + market.StoragePricePerEpoch p * (market.EndEpoch p - market.StartEpoch p))%Z.

(** Modelled from the spec: the least price per epoch the ask accepts
    for a piece, the ask's price per GiB and epoch times the piece size,
    divided by one GiB with integer division (scenario S1 of section 8). *)
Definition minPrice (ask : StorageAsk) (p : market.DealProposal)
  : abi.TokenAmount :=
  (Price ask * Z.of_N (market.PieceSize p) / 2 ^ 30)%Z.

(** Modelled from the spec: handler 1 of section 4.3,
    validate_deal_proposal (provider_states.go is not among the
    sources). The chain head is queried first, its token being an
    argument of the signature check; then come, in the order of the
    specification, the signature, the provider address, the start epoch
    against the acceptance buffer, the price, the piece size and the
    client's balance. A failed chain look-up triggers node_errored, a
    failed policy check deal_rejected, success tags the connection and
    triggers deal_accepted. The messages are those the tests assert; the
    one for a piece above the maximum is asserted by no test. *)
Definition ValidateDealProposal (environment : ProviderDealEnvironment)
    (deal : MinerDeal) : Handled :=
  let proposal := market.Proposal (ClientDealProposal deal) in
  match GetChainHead (Node environment) with
  | inl err =>
      Trigger ProviderEventNodeErrored
        [ArgError (Errorf_w "getting most recent state id: " err)]
  | inr (tok, height) =>
      match VerifySignature (Node environment)
              (market.ClientSignature (ClientDealProposal deal))
              (market.Client proposal) proposal tok with
      | inl err =>
          Trigger ProviderEventDealRejected
            [ArgError (Errorf_w "verifying StorageDealProposal: " err)]
      | inr false =>
          Trigger ProviderEventDealRejected
            [ArgError (Errorf_w "verifying StorageDealProposal: "
                         "could not verify signature")]
      | inr true =>
          if negb (String.eqb (market.Provider proposal) (Address environment))
          then
            Trigger ProviderEventDealRejected
              [ArgError "incorrect provider for deal"]
          else if (height >? market.StartEpoch proposal
                              - DealAcceptanceBuffer environment)%Z
          then
            Trigger ProviderEventDealRejected
              [ArgError "deal start epoch is too soon or deal already expired"]
          else if (market.StoragePricePerEpoch proposal
                   <? minPrice (Ask environment) proposal)%Z
          then
            Trigger ProviderEventDealRejected
              [ArgError ("storage price per epoch less than asking price: "
                           +:+ pretty (market.StoragePricePerEpoch proposal)
                           +:+ " < "
                           +:+ pretty (minPrice (Ask environment) proposal))]
          else if (market.PieceSize proposal <? MinPieceSize (Ask environment))%N
          then
            Trigger ProviderEventDealRejected
              [ArgError ("piece size less than minimum required size: "
                           +:+ pretty (market.PieceSize proposal)
                           +:+ " < "
                           +:+ pretty (MinPieceSize (Ask environment)))]
          else if (MaxPieceSize (Ask environment) <? market.PieceSize proposal)%N
          then
            Trigger ProviderEventDealRejected
              [ArgError ("piece size more than maximum allowed size: "
                           +:+ pretty (market.PieceSize proposal)
                           +:+ " > "
                           +:+ pretty (MaxPieceSize (Ask environment)))]
          else
            match GetBalance (Node environment) (market.Client proposal) tok with
            | inl err =>
                Trigger ProviderEventNodeErrored
                  [ArgError (Errorf_w "getting client market balance failed: " err)]
            | inr clientMarketBalance =>
                if (Available clientMarketBalance
                    <? ClientBalanceRequirement proposal)%Z
                then
                  Trigger ProviderEventDealRejected
                    [ArgError "clientMarketBalance.Available too small"]
                else
                  ([CallTagConnection (ProposalCid deal)],
                   (ProviderEventDealAccepted, []))
            end
      end
  end.

(** The files of a record that are still present: a path that is set
    names one. *)
Definition deletions (deal : MinerDeal) : list Call :=
  (if String.eqb (PiecePath deal) "" then [] else [CallDelete (PiecePath deal)])
  ++ (if String.eqb (MetadataPath deal) "" then []
      else [CallDelete (MetadataPath deal)]).

(** Modelled from the spec: handler 11 of section 4.3, fail_deal
    (provider_states.go is not among the sources): if the connection is
    still open, send a signed failure response, an error of the send
    being reported by send_response_failed; otherwise skip the response;
    delete the piece and metadata files still present; trigger failed. *)
Definition FailDeal (environment : ProviderDealEnvironment)
    (deal : MinerDeal) : Handled :=
  if negb (ConnectionClosed deal) then
    let response :=
      {| network.State := StorageDealFailing;
         network.Message := Message deal;
         network.Proposal := ProposalCid deal;
         network.PublishMessage := None |} in
    match SendSignedResponse environment response with
    | Some err =>
        ([CallSendSignedResponse response],
         (ProviderEventSendResponseFailed, [ArgError err]))
    | None =>
        (CallSendSignedResponse response :: deletions deal,
         (ProviderEventFailed, []))
    end
  else (deletions deal, (ProviderEventFailed, [])).

(** A handler is run on a record, and the event it triggers is then
    applied to the record, as the engine does and as the tests replay
    it. *)
Definition enter (handler : ProviderDealEnvironment -> MinerDeal -> Handled)
    (environment : ProviderDealEnvironment) (deal : MinerDeal)
  : list Call * MinerDeal :=
  let handled := handler environment deal in
  (handled.1, (fire handled.2 deal).1).

End providerstates.


(** ** Package testnodes: the fake chain node of the handler tests *)

Module testnodes.

Import storagemarket.

(** [StorageMarketState] represents a state for the storage market that
    can be inspected. *)
Record StorageMarketState := {
  TipSetToken : shared.TipSetToken;
  Epoch : abi.ChainEpoch;
  DealId : abi.DealID;
  Balances : gmap address.Address abi.TokenAmount
}.

Definition NewStorageMarketState : StorageMarketState :=
  {| TipSetToken := []; Epoch := 0%Z; DealId := 0%N; Balances := ∅ |}.

(** [AddFunds] adds funds for a given address in the storage market. *)
Definition AddFunds (addr : address.Address) (amount : abi.TokenAmount)
    (sma : StorageMarketState) : StorageMarketState :=
  {| TipSetToken := TipSetToken sma; Epoch := Epoch sma; DealId := DealId sma;
     Balances :=
       match Balances sma !! addr with
       | Some existing => <[addr := (existing + amount)%Z]> (Balances sma)
       | None => <[addr := amount]> (Balances sma)
       end |}.

(** [Balance] returns the balance of a given address in the market. *)
Definition Balance (sma : StorageMarketState) (addr : address.Address)
  : storagemarket.Balance :=
  match Balances sma !! addr with
  | Some existing => {| Locked := 0%Z; Available := existing |}
  | None => {| Locked := 0%Z; Available := 0%Z |}
  end.

Definition StateKey (sma : StorageMarketState)
  : shared.TipSetToken * abi.ChainEpoch :=
  (TipSetToken sma, Epoch sma).

(** [FakeCommonNode] has the common methods for the storage and client
    node adapters; a nil error is [None]. *)
Record FakeCommonNode := {
  SMState : StorageMarketState;
  VerifySignatureFails : bool;
  GetBalanceError : option error;
  GetChainHeadError : option error
}.

Definition GetChainHead (n : FakeCommonNode)
  : error + (shared.TipSetToken * abi.ChainEpoch) :=
  match GetChainHeadError n with
  | None => inr (StateKey (SMState n))
  | Some err => inl err
  end.

Definition GetBalance (n : FakeCommonNode) (addr : address.Address)
    (tok : shared.TipSetToken) : error + storagemarket.Balance :=
  match GetBalanceError n with
  | None => inr (Balance (SMState n) addr)
  | Some err => inl err
  end.

Definition VerifySignature (n : FakeCommonNode) (signature : string)
    (addr : address.Address) (data : market.DealProposal) (tok : shared.TipSetToken)
  : error + bool :=
  inr (negb (VerifySignatureFails n)).

(** [FakeProviderNode] implements functions specific to the
    StorageProviderNode; the embedded [FakeCommonNode] is the field
    [FakeCommonNode_]. *)
Record FakeProviderNode := {
  FakeCommonNode_ : FakeCommonNode;
  MinerAddr : address.Address
}.

(** The fake provider node as a [storagemarket.StorageProviderNode]. *)
Definition FakeProviderNode_StorageProviderNode (n : FakeProviderNode)
  : storagemarket.StorageProviderNode :=
  {| storagemarket.GetChainHead := GetChainHead (FakeCommonNode_ n);
     storagemarket.VerifySignature := VerifySignature (FakeCommonNode_ n);
     storagemarket.GetBalance := GetBalance (FakeCommonNode_ n) |}.

(** The deals of the storage market state, its field [StorageDeals],
    and the methods that read and write it; the state that is passed is
    this field. *)
Section StorageDeals.

Context {DealState : Type}.

Definition StorageDeals : Type :=
  gmap address.Address (list (storagemarket.StorageDeal DealState)).

(** [Deals] returns all deals in the current state. *)
Definition Deals (deals : StorageDeals) (addr : address.Address)
  : list (storagemarket.StorageDeal DealState) :=
  match deals !! addr with
  | Some existing => existing
  | None => []
  end.

(** [AddDeal] adds a deal to the current state of the storage market:
    to the deals of its client, then to the deals of its provider. *)
Definition AddDeal (deal : storagemarket.StorageDeal DealState)
    (deals : StorageDeals) : StorageDeals :=
  fold_left
    (fun (deals : StorageDeals) (addr : address.Address) =>
       match deals !! addr with
       | Some existing => <[addr := (existing ++ [deal])%list]> deals
       | None => <[addr := [deal]]> deals
       end)
    [market.Client (storagemarket.DealProposal deal);
     market.Provider (storagemarket.DealProposal deal)]
    deals.

End StorageDeals.

(** The fields of [FakeCommonNode] that the funding methods read. *)
Record FakeCommonNodeFunds := {
  AddFundsCid : cid.Cid;
  EnsureFundsError : option error
}.

Definition set_SMState (smstate : StorageMarketState) (n : FakeCommonNode)
  : FakeCommonNode :=
  {| SMState := smstate;
     VerifySignatureFails := VerifySignatureFails n;
     GetBalanceError := GetBalanceError n;
     GetChainHeadError := GetChainHeadError n |}.

(** [AddFunds] of the node adds funds to the given actor in the storage
    market state; the node after the call comes first in the result. *)
Definition FakeCommonNode_AddFunds (f : FakeCommonNodeFunds)
    (n : FakeCommonNode) (addr : address.Address) (amount : abi.TokenAmount)
  : FakeCommonNode * (cid.Cid * option error) :=
  (set_SMState (AddFunds addr amount (SMState n)) n, (AddFundsCid f, None)).

(** [EnsureFunds] adds funds to the given actor in the storage market
    state to insure it has at least the given amount. *)
Definition FakeCommonNode_EnsureFunds (f : FakeCommonNodeFunds)
    (n : FakeCommonNode) (addr wallet : address.Address)
    (amount : abi.TokenAmount) (tok : shared.TipSetToken)
  : FakeCommonNode * (cid.Cid * option error) :=
  match EnsureFundsError f with
  | None =>
      let balance := Balance (SMState n) addr in
      if (storagemarket.Available balance <? amount)%Z then
        FakeCommonNode_AddFunds f n addr
          (amount - storagemarket.Available balance)%Z
      else (n, (cid.Undef, None))
  | Some err => (n, (cid.Undef, Some err))
  end.

End testnodes.

(** ** The handler tests: defaults and executor

    The fixtures of provider_states_test.go: the default parameters "are
    setup to allow a deal to complete each handler with no errors", and a
    test overrides some of them. The identifiers the tests generate at
    random or take from test utilities are fixed names here. *)

Module providerstates_test.

Definition defaultHeight : abi.ChainEpoch := 50%Z.
Definition defaultTipSetToken : shared.TipSetToken := [1; 2; 3]%N.
Definition defaultStoragePricePerEpoch : abi.TokenAmount := 10000%Z.
Definition defaultPieceSize : abi.PaddedPieceSize := 1048576%N.
Definition defaultStartEpoch : abi.ChainEpoch := 200%Z.
Definition defaultEndEpoch : abi.ChainEpoch := 400%Z.
Definition defaultPieceCid : cid.Cid := "defaultPieceCid".
Definition defaultPath : filestore.Path := "file.txt".
Definition defaultMetadataPath : filestore.Path := "metadataPath.txt".
Definition defaultClientAddress : address.Address := "TestAddress".
Definition defaultProviderAddress : address.Address := "TestAddress2".
Definition defaultMinerAddr : address.Address := "miner".
Definition defaultClientCollateral : abi.TokenAmount := 0%Z.
Definition defaultProviderCollateral : abi.TokenAmount := 0%Z.
Definition defaultDataRef : storagemarket.DataRef :=
  {| storagemarket.Root := "defaultRoot";
     storagemarket.TransferType := storagemarket.TTGraphsync;
     storagemarket.PieceCid := None;
     storagemarket.PieceSize := 0%N |}.
Definition defaultClientMarketBalance : abi.TokenAmount := (200 * 10000)%Z.

Definition defaultAsk : storagemarket.StorageAsk :=
  {| storagemarket.Price := 10000000%Z;
     storagemarket.MinPieceSize := 256%N;
     storagemarket.MaxPieceSize := N.shiftl 1 20;
     storagemarket.AskMiner := "";
     storagemarket.Timestamp := 0%Z;
     storagemarket.Expiry := 0%Z;
     storagemarket.SeqNo := 0%N |}.

(** [storagemarket.StorageAskUndefined], the zero ask. *)
Definition StorageAskUndefined : storagemarket.StorageAsk :=
  {| storagemarket.Price := 0%Z;
     storagemarket.MinPieceSize := 0%N;
     storagemarket.MaxPieceSize := 0%N;
     storagemarket.AskMiner := "";
     storagemarket.Timestamp := 0%Z;
     storagemarket.Expiry := 0%Z;
     storagemarket.SeqNo := 0%N |}.

#[global] Instance StorageAsk_eq_dec : EqDecision storagemarket.StorageAsk.
Proof. solve_decision. Defined.

(** The parameters of a test; a token amount that is Nil is [None], an
    address that is Undef is the empty text. *)
Record nodeParams := {
  Height : abi.ChainEpoch;
  TipSetToken : shared.TipSetToken;
  ClientMarketBalance : option abi.TokenAmount;
  ClientMarketBalanceError : option error;
  VerifySignatureFails : bool;
  MostRecentStateIDError : option error
}.

Record dealParams := {
  PiecePath : filestore.Path;
  MetadataPath : filestore.Path;
  ConnectionClosed : bool;
  DealID : abi.DealID;
  StoragePricePerEpoch : option abi.TokenAmount;
  ProviderCollateral : option abi.TokenAmount;
  PieceSize : abi.PaddedPieceSize;
  StartEpoch : abi.ChainEpoch;
  EndEpoch : abi.ChainEpoch
}.

Record environmentParams := {
  Address : address.Address;
  Ask : storagemarket.StorageAsk;
  SendSignedResponseError : option error;
  DealAcceptanceBuffer : Z;
  TagsProposal : bool
}.

(** The zero values of the three parameter structs. *)
Definition noNodeParams : nodeParams :=
  {| Height := 0%Z; TipSetToken := []; ClientMarketBalance := None;
     ClientMarketBalanceError := None; VerifySignatureFails := false;
     MostRecentStateIDError := None |}.

Definition noDealParams : dealParams :=
  {| PiecePath := ""; MetadataPath := ""; ConnectionClosed := false;
     DealID := 0%N; StoragePricePerEpoch := None; ProviderCollateral := None;
     PieceSize := 0%N; StartEpoch := 0%Z; EndEpoch := 0%Z |}.

Definition noEnvironmentParams : environmentParams :=
  {| Address := ""; Ask := StorageAskUndefined;
     SendSignedResponseError := None; DealAcceptanceBuffer := 0%Z;
     TagsProposal := false |}.

(** The field [address] is [address_] here, [address] being the name of
    the package. *)
Record fakeEnvironment := {
  address_ : address.Address;
  node : storagemarket.StorageProviderNode;
  ask : storagemarket.StorageAsk;
  sendSignedResponseError : option error;
  dealAcceptanceBuffer : abi.ChainEpoch
}.

(** The methods of [fakeEnvironment]. *)
Definition fakeEnvironment_env (fe : fakeEnvironment)
  : providerstates.ProviderDealEnvironment :=
  {| providerstates.Address := address_ fe;
     providerstates.Node := node fe;
     providerstates.Ask := ask fe;
     providerstates.SendSignedResponse := fun _ => sendSignedResponseError fe;
     providerstates.TagConnection := fun _ => None;
     providerstates.DealAcceptanceBuffer := dealAcceptanceBuffer fe |}.

(** The chain node [makeExecutor] builds. *)
Definition makeNode (np : nodeParams) : testnodes.FakeProviderNode :=
  let smstate := testnodes.NewStorageMarketState in
  let smstate :=
    if bool_decide (Height np ≠ 0%Z) then
      {| testnodes.TipSetToken := TipSetToken np;
         testnodes.Epoch := Height np;
         testnodes.DealId := testnodes.DealId smstate;
         testnodes.Balances := testnodes.Balances smstate |}
    else
      {| testnodes.TipSetToken := defaultTipSetToken;
         testnodes.Epoch := defaultHeight;
         testnodes.DealId := testnodes.DealId smstate;
         testnodes.Balances := testnodes.Balances smstate |} in
  let smstate :=
    match ClientMarketBalance np with
    | Some balance => testnodes.AddFunds defaultClientAddress balance smstate
    | None =>
        testnodes.AddFunds defaultClientAddress defaultClientMarketBalance smstate
    end in
  {| testnodes.FakeCommonNode_ :=
       {| testnodes.SMState := smstate;
          testnodes.GetChainHeadError := MostRecentStateIDError np;
          testnodes.GetBalanceError := ClientMarketBalanceError np;
          testnodes.VerifySignatureFails := VerifySignatureFails np |};
     testnodes.MinerAddr := defaultMinerAddr |}.

(** The deal record [makeExecutor] builds in the initial state. *)
Definition makeDeal (initialState : storagemarket.StorageDealStatus)
    (dp : dealParams) : storagemarket.MinerDeal :=
  let proposal :=
    {| market.PieceCID := defaultPieceCid;
       market.PieceSize :=
         if bool_decide (PieceSize dp ≠ 0%N) then PieceSize dp
         else defaultPieceSize;
       market.Client := defaultClientAddress;
       market.Provider := defaultProviderAddress;
       market.StartEpoch :=
         if bool_decide (StartEpoch dp ≠ 0%Z) then StartEpoch dp
         else defaultStartEpoch;
       market.EndEpoch :=
         if bool_decide (EndEpoch dp ≠ 0%Z) then EndEpoch dp
         else defaultEndEpoch;
       market.StoragePricePerEpoch :=
         default defaultStoragePricePerEpoch (StoragePricePerEpoch dp);
       market.ProviderCollateral :=
         default defaultProviderCollateral (ProviderCollateral dp);
       market.ClientCollateral := defaultClientCollateral |} in
  {| storagemarket.ClientDealProposal :=
       {| market.Proposal := proposal;
          market.ClientSignature := "TestSignature" |};
     storagemarket.ProposalCid := "proposalCid";
     storagemarket.AddFundsCid := Some "addFundsCid";
     storagemarket.PublishCid := Some "publishCid";
     storagemarket.Miner := "minerPeer";
     storagemarket.Client := "clientPeer";
     storagemarket.State := initialState;
     storagemarket.PiecePath := PiecePath dp;
     storagemarket.MetadataPath := MetadataPath dp;
     storagemarket.ConnectionClosed := ConnectionClosed dp;
     storagemarket.Message := "";
     storagemarket.Ref := Some defaultDataRef;
     storagemarket.DealID := DealID dp |}.

Definition makeEnvironment (np : nodeParams) (params : environmentParams)
  : fakeEnvironment :=
  {| address_ :=
       if bool_decide (Address params = "") then defaultProviderAddress
       else Address params;
     node := testnodes.FakeProviderNode_StorageProviderNode (makeNode np);
     ask :=
       if bool_decide (Ask params = StorageAskUndefined) then defaultAsk
       else Ask params;
     sendSignedResponseError := SendSignedResponseError params;
     dealAcceptanceBuffer := DealAcceptanceBuffer params |}.

(** [makeExecutor]: run the state entry function on the deal built from
    the parameters, replay the events it triggers on the deal, and hand
    the deal to the inspector. *)
Definition makeExecutor
    (stateEntryFunc :
       providerstates.ProviderDealEnvironment -> storagemarket.MinerDeal ->
       providerstates.Handled)
    (initialState : storagemarket.StorageDealStatus)
    (np : nodeParams) (params : environmentParams) (dp : dealParams)
  : list providerstates.Call * storagemarket.MinerDeal :=
  providerstates.enter stateEntryFunc
    (fakeEnvironment_env (makeEnvironment np params))
    (makeDeal initialState dp).

(** Cases of [TestValidateDealProposal]: "CurrentHeight <= StartEpoch -
    DealAcceptanceBuffer() succeeds" at height 190 and "CurrentHeight >
    StartEpoch - DealAcceptanceBuffer() fails" at height 191, and
    "PricePerEpoch too low". *)
Definition test_CurrentHeight (height : abi.ChainEpoch)
  : list providerstates.Call * storagemarket.MinerDeal :=
  makeExecutor providerstates.ValidateDealProposal
    storagemarket.StorageDealValidating
    {| Height := height; TipSetToken := []; ClientMarketBalance := None;
       ClientMarketBalanceError := None; VerifySignatureFails := false;
       MostRecentStateIDError := None |}
    {| Address := ""; Ask := StorageAskUndefined;
       SendSignedResponseError := None; DealAcceptanceBuffer := 10%Z;
       TagsProposal := true |}
    {| PiecePath := ""; MetadataPath := ""; ConnectionClosed := false;
       DealID := 0%N; StoragePricePerEpoch := None; ProviderCollateral := None;
       PieceSize := 0%N; StartEpoch := 200%Z; EndEpoch := 0%Z |}.



(** Case "succeeds, skips response" of [TestFailDeal]: the connection is
    closed, and a send would fail. *)
Definition skipsResponse_environmentParams : environmentParams :=
  {| Address := ""; Ask := StorageAskUndefined;
     SendSignedResponseError := Some "could not send";
     DealAcceptanceBuffer := 0%Z; TagsProposal := false |}.

Definition skipsResponse_dealParams : dealParams :=
  {| PiecePath := ""; MetadataPath := ""; ConnectionClosed := true;
     DealID := 0%N; StoragePricePerEpoch := None; ProviderCollateral := None;
     PieceSize := 0%N; StartEpoch := 0%Z; EndEpoch := 0%Z |}.


End providerstates_test.


(** * Properties *)

Import storagemarket providerstates.

(** ** The event processor *)

(** The events of the provider table have distinct names: the processor
    is built. *)
Lemma eventProcessor_built : exists ep, eventProcessor = inr ep.
Proof.
  assert (Hb : match eventProcessor with inl _ => false | inr _ => true end
               = true) by (vm_compute; reflexivity).
  destruct eventProcessor as [diag|ep]; [discriminate Hb|].
  exists ep. reflexivity.
Qed.

(** [Apply] by its two look-ups. *)
Lemma Apply_unfold (n : ProviderEvent) (args : list Arg) (deal : MinerDeal) :
  Apply (n, args) deal =
  match destinationOf n (State deal) with
  | None => inl (fsm.InvalidTransition (State deal) n)
  | Some destination =>
      match callAction n deal args with
      | None => inl (fsm.UnknownEvent n)
      | Some None => inl (fsm.ArgumentMismatch n)
      | Some (Some deal') =>
          inr match destination with
              | Some dst => set_State dst deal'
              | None => deal'
              end
      end
  end.
Proof.
  unfold Apply, destinationOf, callAction, actionOf, fsm.Apply.
  destruct eventProcessor_built as [ep ->]. cbn [fst snd].
  destruct (match fsm.transitionsMap ep !! (n, Some (State deal)) with
            | Some destination => Some destination
            | None => fsm.transitionsMap ep !! (n, None)
            end) as [destination|]; [|reflexivity].
  destruct (fsm.callbacks ep !! n) as [[f|]|]; reflexivity.
Qed.

(** The fallback transition of node_errored: its destination from every
    state. *)
Lemma destinationOf_NodeErrored (s : StorageDealStatus) :
  destinationOf ProviderEventNodeErrored s = Some (Some StorageDealFailing).
Proof. destruct s; vm_compute; reflexivity. Qed.

(** No row of the table names the restart event. *)
Lemma destinationOf_Restart (s : StorageDealStatus) :
  destinationOf ProviderEventRestart s = None.
Proof. destruct s; vm_compute; reflexivity. Qed.

(** What the node-errored event does, from every state. *)
Lemma fire_NodeErrored (deal : MinerDeal) (err : error) :
  fire (ProviderEventNodeErrored, [ArgError err]) deal =
    (set_State StorageDealFailing
       (set_Message ("error calling node: " +:+ err) deal), None).
Proof.
  unfold fire. rewrite Apply_unfold, destinationOf_NodeErrored.
  vm_compute. reflexivity.
Qed.

(** ** Transitions of single events *)

(** C7: from every state, the node-errored event with error [err] is
    accepted, moves the record to [StorageDealFailing] and sets its
    message to "error calling node: " followed by the text of [err];
    the other fields of the record are as before. *)
Theorem C7_node_errored_from_any (deal : MinerDeal) (err : error) :
  fire (ProviderEventNodeErrored, [ArgError err]) deal =
    (set_State StorageDealFailing
       (set_Message ("error calling node: " +:+ err) deal), None)
  /\ State (fire (ProviderEventNodeErrored, [ArgError err]) deal).1
     = StorageDealFailing
  /\ Message (fire (ProviderEventNodeErrored, [ArgError err]) deal).1
     = "error calling node: " +:+ err.
Proof.
  rewrite (fire_NodeErrored deal err). repeat split; reflexivity.
Qed.

(** C2, as the code has it: the restart event is in no row of the
    provider table, so from every state, and with any arguments, firing
    it is rejected as an invalid transition; the record is not re-entered
    into its state, it is left as it is and no handler is dispatched. *)
Theorem C2_restart_not_in_table (deal : MinerDeal) (args : list Arg) :
  (ProviderEventRestart ∉ map fsm.name ProviderEvents)
  /\ destinationOf ProviderEventRestart (State deal) = None
  /\ fire (ProviderEventRestart, args) deal =
       (deal, Some (fsm.InvalidTransition (State deal) ProviderEventRestart)).
Proof.
  split; [apply (bool_decide_unpack _); vm_compute; exact I|].
  split; [apply destinationOf_Restart|].
  unfold fire. rewrite Apply_unfold, destinationOf_Restart. reflexivity.
Qed.

(** C8: the display names of the client events have no entry for
    [ClientEventRestart], those of the provider events name
    [ProviderEventRestart]. *)
Theorem C8_restart_display_names :
  ClientEvents !! ClientEventRestart = None
  /\ storagemarket.ProviderEvents !! ProviderEventRestart
     = Some "ProviderEventRestart".
Proof. split; vm_compute; reflexivity. Qed.

(** C3: in state [StorageDealPublishing], the deal-published event that
    carries deal id [D] is accepted; the record moves to
    [StorageDealStaged], its [DealID] is [D] and its [ConnectionClosed]
    flag is true. *)
Theorem C3_deal_published (deal : MinerDeal) (D : abi.DealID) :
  State deal = StorageDealPublishing ->
  fire (ProviderEventDealPublished, [ArgDealID D]) deal =
    (set_State StorageDealStaged
       (set_DealID D (set_ConnectionClosed true deal)), None)
  /\ State (fire (ProviderEventDealPublished, [ArgDealID D]) deal).1
     = StorageDealStaged
  /\ DealID (fire (ProviderEventDealPublished, [ArgDealID D]) deal).1 = D
  /\ ConnectionClosed (fire (ProviderEventDealPublished, [ArgDealID D]) deal).1
     = true.
Proof.
  intros Hstate.
  assert (Hfire : fire (ProviderEventDealPublished, [ArgDealID D]) deal =
    (set_State StorageDealStaged
       (set_DealID D (set_ConnectionClosed true deal)), None)).
  { unfold fire. rewrite Apply_unfold, Hstate. vm_compute. reflexivity. }
  rewrite Hfire. repeat split; reflexivity.
Qed.

Lemma C3_witness :
  let deal :=
    providerstates_test.makeDeal StorageDealPublishing
      providerstates_test.noDealParams in
  State deal = StorageDealPublishing
  /\ State (fire (ProviderEventDealPublished, [ArgDealID 42%N]) deal).1
     = StorageDealStaged
  /\ DealID (fire (ProviderEventDealPublished, [ArgDealID 42%N]) deal).1 = 42%N
  /\ ConnectionClosed
       (fire (ProviderEventDealPublished, [ArgDealID 42%N]) deal).1 = true.
Proof.
  cbv zeta. split; [reflexivity|].
  apply (C3_deal_published
           (providerstates_test.makeDeal StorageDealPublishing
              providerstates_test.noDealParams) 42%N).
  reflexivity.
Defined.

(** ** Terminal states *)




(** ** The failure message along a run *)

(** An accepted event either leaves the message as it is, and then does
    not enter [StorageDealFailing] and enters [StorageDealError] from
    [StorageDealFailing] only, or it assigns a non-empty message and
    enters one of these two states. *)
Lemma Apply_message (n : ProviderEvent) (args : list Arg)
    (deal deal' : MinerDeal) :
  Apply (n, args) deal = inr deal' ->
  (Message deal' = Message deal
   /\ State deal' <> StorageDealFailing
   /\ (State deal' = StorageDealError -> State deal = StorageDealFailing))
  \/ (Message deal' <> ""
      /\ (State deal' = StorageDealFailing \/ State deal' = StorageDealError)).
Proof.
  rewrite Apply_unfold.
  destruct deal as [cdp pcid afc pbc mnr cl s pp mp cc msg rf did].
  destruct n, s; vm_compute; intros H; try discriminate H;
    destruct args as [|[?|?|?|?] [|[?|?|?|?] [|? ?]]]; try discriminate H;
    injection H as <-;
    first [ left; split; [reflexivity|]; split;
              [ discriminate | intros H'; first [reflexivity | discriminate H'] ]
          | right; split; [discriminate|]; first [left; reflexivity | right; reflexivity] ].
Qed.

Lemma message_invariant_step (visited : list StorageDealStatus)
    (evt : ProviderEvent * list Arg) (deal deal' : MinerDeal) :
  message_invariant visited deal ->
  Apply evt deal = inr deal' ->
  message_invariant (State deal' :: visited) deal'.
Proof.
  intros (Hmsg & Hfailing & Herror) Happly. destruct evt as [n args].
  destruct (Apply_message _ _ _ _ Happly) as [(Hsame & Hnf & Hfrom) | (Hset & Hin)].
  - unfold message_invariant. rewrite Hsame, !elem_of_cons. split; [split|split].
    + intros H. apply Hmsg in H. tauto.
    + intros [[H | H] | [H | H]].
      * symmetry in H. contradiction.
      * apply Hmsg. auto.
      * symmetry in H. apply Hmsg. auto.
      * apply Hmsg. auto.
    + intros H. contradiction.
    + intros H. left. symmetry. exact H.
  - unfold message_invariant. rewrite !elem_of_cons. split; [split|split].
    + intros _. destruct Hin as [-> | ->]; auto.
    + intros _. exact Hset.
    + intros H. left. symmetry. exact H.
    + intros H. left. symmetry. exact H.
Qed.

Lemma message_invariant_run (evts : list (ProviderEvent * list Arg)) :
  forall (visited : list StorageDealStatus) (deal : MinerDeal),
    message_invariant visited deal ->
    message_invariant (run visited deal evts).1 (run visited deal evts).2.
Proof.
  induction evts as [|evt rest IH]; intros visited deal Hinv; [exact Hinv|].
  cbn [run]. destruct (Apply evt deal) as [diag|deal'] eqn:Happly.
  - apply IH. exact Hinv.
  - apply IH. eapply message_invariant_step; eauto.
Qed.

(** C4, as the code has it: for a record created with an empty message
    in state [StorageDealUnknown] and opened, whatever events are fired
    afterwards, the message is non-empty if and only if the record has
    entered [StorageDealFailing] or [StorageDealError]; a record that
    has entered [StorageDealFailing] has a non-empty message, and so has
    a record in state [StorageDealError]. *)
Theorem C4_message_iff_failing_or_error (deal0 : MinerDeal)
    (evts : list (ProviderEvent * list Arg)) :
  State deal0 = StorageDealUnknown ->
  Message deal0 = "" ->
  let reached := run [] deal0 ((ProviderEventOpen, []) :: evts) in
  (Message reached.2 <> "" <->
     StorageDealFailing ∈ reached.1 \/ StorageDealError ∈ reached.1)
  /\ (StorageDealFailing ∈ reached.1 -> Message reached.2 <> "")
  /\ (State reached.2 = StorageDealError -> Message reached.2 <> "").
Proof.
  intros Hstate Hmsg reached.
  assert (Hinit : message_invariant [] deal0).
  { unfold message_invariant. rewrite Hstate, Hmsg. split; [split|split].
    - intros H. contradiction H. reflexivity.
    - intros [H | H]; inversion H.
    - discriminate.
    - discriminate. }
  destruct (message_invariant_run ((ProviderEventOpen, []) :: evts) [] deal0 Hinit)
    as (Hiff & _ & Herror).
  fold reached in Hiff, Herror.
  split; [exact Hiff|]. split.
  - intros H. apply Hiff. left. exact H.
  - intros H. apply Hiff. right. apply Herror. exact H.
Qed.

(** A record that leaves [StorageDealPublishing] by a failed send of the
    response reaches [StorageDealError] with a message, and was never in
    [StorageDealFailing]: the statement "non-empty if and only if the record
    passed through [StorageDealFailing]" fails there. *)
Lemma C4_counterexample :
  let reached :=
    run [] (providerstates_test.makeDeal StorageDealUnknown
              providerstates_test.noDealParams)
      [(ProviderEventOpen, []);
       (ProviderEventDealAccepted, []);
       (ProviderEventDataTransferInitiated, []);
       (ProviderEventDataTransferCompleted, []);
       (ProviderEventVerifiedData, [ArgPath "file.txt"; ArgPath "metadataPath.txt"]);
       (ProviderEventFunded, []);
       (ProviderEventDealPublishInitiated, [ArgCid "publishCid"]);
       (ProviderEventSendResponseFailed, [ArgError "could not send"])] in
  reached.1 = [StorageDealError; StorageDealPublishing; StorageDealPublish;
               StorageDealEnsureProviderFunds; StorageDealVerifyData;
               StorageDealTransferring; StorageDealProposalAccepted;
               StorageDealValidating]
  /\ State reached.2 = StorageDealError
  /\ Message reached.2 = "sending response to deal: could not send"
  /\ ~ (Message reached.2 <> "" <-> StorageDealFailing ∈ reached.1).
Proof.
  cbv zeta.
  assert (Hrun :
    run [] (providerstates_test.makeDeal StorageDealUnknown
              providerstates_test.noDealParams)
      [(ProviderEventOpen, []);
       (ProviderEventDealAccepted, []);
       (ProviderEventDataTransferInitiated, []);
       (ProviderEventDataTransferCompleted, []);
       (ProviderEventVerifiedData, [ArgPath "file.txt"; ArgPath "metadataPath.txt"]);
       (ProviderEventFunded, []);
       (ProviderEventDealPublishInitiated, [ArgCid "publishCid"]);
       (ProviderEventSendResponseFailed, [ArgError "could not send"])]
    = ([StorageDealError; StorageDealPublishing; StorageDealPublish;
        StorageDealEnsureProviderFunds; StorageDealVerifyData;
        StorageDealTransferring; StorageDealProposalAccepted;
        StorageDealValidating],
       set_State StorageDealError
         (set_Message "sending response to deal: could not send"
            (set_MetadataPath "metadataPath.txt"
               (set_PiecePath "file.txt"
                  (providerstates_test.makeDeal StorageDealUnknown
                     providerstates_test.noDealParams))))))
    by (vm_compute; reflexivity).
  rewrite Hrun. cbn [fst snd]. repeat split.
  intros [Hin _].
  assert (Hne : "sending response to deal: could not send" <> "") by discriminate.
  specialize (Hin Hne). clear -Hin.
  repeat (apply elem_of_cons in Hin as [Hin | Hin]; [discriminate Hin|]).
  inversion Hin.
Qed.

Lemma C4_witness :
  let reached :=
    run [] (providerstates_test.makeDeal StorageDealUnknown
              providerstates_test.noDealParams)
      [(ProviderEventOpen, []);
       (ProviderEventDealRejected, [ArgError "incorrect provider for deal"]);
       (ProviderEventFailed, [])] in
  (Message reached.2 <> "" <->
     StorageDealFailing ∈ reached.1 \/ StorageDealError ∈ reached.1)
  /\ (StorageDealFailing ∈ reached.1 -> Message reached.2 <> "")
  /\ (State reached.2 = StorageDealError -> Message reached.2 <> "").
Proof.
  apply (C4_message_iff_failing_or_error
           (providerstates_test.makeDeal StorageDealUnknown
              providerstates_test.noDealParams)
           [(ProviderEventDealRejected, [ArgError "incorrect provider for deal"]);
            (ProviderEventFailed, [])]); reflexivity.
Defined.



(** ** Texts *)



(** ** Locating a piece *)



(** ** Validation of a proposal *)

(** What the deal-rejected, deal-accepted and failed events do in the
    state whose handler triggers them. *)
Lemma fire_DealRejected (deal : MinerDeal) (err : error) :
  State deal = StorageDealValidating ->
  fire (ProviderEventDealRejected, [ArgError err]) deal =
    (set_State StorageDealFailing
       (set_Message ("deal rejected: " +:+ err) deal), None).
Proof.
  intros Hstate. unfold fire. rewrite Apply_unfold, Hstate. reflexivity.
Qed.

Lemma fire_DealAccepted (deal : MinerDeal) :
  State deal = StorageDealValidating ->
  fire (ProviderEventDealAccepted, []) deal =
    (set_State StorageDealProposalAccepted deal, None).
Proof.
  intros Hstate. unfold fire. rewrite Apply_unfold, Hstate. reflexivity.
Qed.

Lemma fire_Failed (deal : MinerDeal) :
  State deal = StorageDealFailing ->
  fire (ProviderEventFailed, []) deal = (set_State StorageDealError deal, None).
Proof.
  intros Hstate. unfold fire. rewrite Apply_unfold, Hstate. reflexivity.
Qed.

(** The checks of [ValidateDealProposal] that come before the start
    epoch: when they pass, the handler goes on with the checks of the
    policy. *)
Lemma ValidateDealProposal_checked (environment : ProviderDealEnvironment)
    (deal : MinerDeal) (tok : shared.TipSetToken) (height : abi.ChainEpoch) :
  let proposal := market.Proposal (ClientDealProposal deal) in
  GetChainHead (Node environment) = inr (tok, height) ->
  VerifySignature (Node environment)
    (market.ClientSignature (ClientDealProposal deal))
    (market.Client proposal) proposal tok = inr true ->
  market.Provider proposal = Address environment ->
  ValidateDealProposal environment deal =
    if (height >? market.StartEpoch proposal
                  - DealAcceptanceBuffer environment)%Z
    then
      Trigger ProviderEventDealRejected
        [ArgError "deal start epoch is too soon or deal already expired"]
    else if (market.StoragePricePerEpoch proposal
             <? minPrice (Ask environment) proposal)%Z
    then
      Trigger ProviderEventDealRejected
        [ArgError ("storage price per epoch less than asking price: "
                     +:+ pretty (market.StoragePricePerEpoch proposal)
                     +:+ " < "
                     +:+ pretty (minPrice (Ask environment) proposal))]
    else if (market.PieceSize proposal <? MinPieceSize (Ask environment))%N
    then
      Trigger ProviderEventDealRejected
        [ArgError ("piece size less than minimum required size: "
                     +:+ pretty (market.PieceSize proposal)
                     +:+ " < "
                     +:+ pretty (MinPieceSize (Ask environment)))]
    else if (MaxPieceSize (Ask environment) <? market.PieceSize proposal)%N
    then
      Trigger ProviderEventDealRejected
        [ArgError ("piece size more than maximum allowed size: "
                     +:+ pretty (market.PieceSize proposal)
                     +:+ " > "
                     +:+ pretty (MaxPieceSize (Ask environment)))]
    else
      match GetBalance (Node environment) (market.Client proposal) tok with
      | inl err =>
          Trigger ProviderEventNodeErrored
            [ArgError (Errorf_w "getting client market balance failed: " err)]
      | inr clientMarketBalance =>
          if (Available clientMarketBalance
              <? ClientBalanceRequirement proposal)%Z
          then
            Trigger ProviderEventDealRejected
              [ArgError "clientMarketBalance.Available too small"]
          else
            ([CallTagConnection (ProposalCid deal)],
             (ProviderEventDealAccepted, []))
      end.
Proof.
  intros proposal Hhead Hsig Hprovider. unfold ValidateDealProposal.
  fold proposal. rewrite Hhead, Hsig, Hprovider, String.eqb_refl.
  reflexivity.
Qed.



(** C6: when the chain head, the signature and the provider address
    pass, the proposal is rejected as starting too soon exactly when the
    current epoch is above the start epoch less the acceptance buffer,
    and the record then enters [StorageDealFailing] with the message
    "deal rejected: deal start epoch is too soon or deal already
    expired"; with buffer 10 and start epoch 200 the test is rejected so
    at epoch 191 and accepted into [StorageDealProposalAccepted] at
    epoch 190. *)
Theorem C6_start_epoch_too_soon (environment : ProviderDealEnvironment)
    (deal : MinerDeal) (tok : shared.TipSetToken) (height : abi.ChainEpoch) :
  let proposal := market.Proposal (ClientDealProposal deal) in
  GetChainHead (Node environment) = inr (tok, height) ->
  VerifySignature (Node environment)
    (market.ClientSignature (ClientDealProposal deal))
    (market.Client proposal) proposal tok = inr true ->
  market.Provider proposal = Address environment ->
  (ValidateDealProposal environment deal =
     Trigger ProviderEventDealRejected
       [ArgError "deal start epoch is too soon or deal already expired"]
   <-> (height > market.StartEpoch proposal
                 - DealAcceptanceBuffer environment)%Z)
  /\ (State deal = StorageDealValidating ->
      (height > market.StartEpoch proposal
                - DealAcceptanceBuffer environment)%Z ->
      enter ValidateDealProposal environment deal =
        ([], set_State StorageDealFailing
               (set_Message
                  "deal rejected: deal start epoch is too soon or deal already expired"
                  deal)))
  /\ (State (providerstates_test.test_CurrentHeight 191%Z).2 = StorageDealFailing
      /\ Message (providerstates_test.test_CurrentHeight 191%Z).2
         = "deal rejected: deal start epoch is too soon or deal already expired")
  /\ State (providerstates_test.test_CurrentHeight 190%Z).2
     = StorageDealProposalAccepted.
Proof.
  intros proposal Hhead Hsig Hprovider.
  pose proof (ValidateDealProposal_checked environment deal tok height Hhead
                Hsig Hprovider) as Hchecked.
  fold proposal in Hchecked.
  split; [|split; [|split; [split|]; vm_compute; reflexivity]].
  - rewrite Hchecked.
    destruct (height >? market.StartEpoch proposal
                        - DealAcceptanceBuffer environment)%Z eqn:Hgt.
    + split; [intros _; apply Z.gtb_gt; exact Hgt | reflexivity].
    + split.
      * intros H. exfalso.
        destruct (_ <? _)%Z; [discriminate H|].
        destruct (_ <? _)%N; [discriminate H|].
        destruct (_ <? _)%N; [discriminate H|].
        destruct (GetBalance _ _ _); [discriminate H|].
        destruct (_ <? _)%Z; discriminate H.
      * intros H. apply Z.gtb_gt in H. congruence.
  - intros Hstate H. apply Z.gtb_gt in H. unfold enter.
    rewrite Hchecked, H. cbn [Trigger fst snd].
    rewrite (fire_DealRejected deal _ Hstate). reflexivity.
Qed.

Lemma C6_witness :
  let environment :=
    providerstates_test.fakeEnvironment_env
      (providerstates_test.makeEnvironment providerstates_test.noNodeParams
         providerstates_test.noEnvironmentParams) in
  let deal :=
    providerstates_test.makeDeal StorageDealValidating
      providerstates_test.noDealParams in
  GetChainHead (Node environment)
    = inr (providerstates_test.defaultTipSetToken, 50%Z)
  /\ (ValidateDealProposal environment deal =
        Trigger ProviderEventDealRejected
          [ArgError "deal start epoch is too soon or deal already expired"]
      <-> (50 > 200 - 0)%Z).
Proof.
  cbv zeta. split; [reflexivity|].
  apply (C6_start_epoch_too_soon
           (providerstates_test.fakeEnvironment_env
              (providerstates_test.makeEnvironment
                 providerstates_test.noNodeParams
                 providerstates_test.noEnvironmentParams))
           (providerstates_test.makeDeal StorageDealValidating
              providerstates_test.noDealParams)
           providerstates_test.defaultTipSetToken 50%Z); reflexivity.
Defined.

(** ** Failing a deal *)

(** C9: when the fail-deal handler runs on a record whose connection is
    closed, it sends no signed response, whatever a send would return;
    it triggers the failed event, and the record moves from
    [StorageDealFailing] to [StorageDealError] with its message, and
    every other field, unchanged. *)
Theorem C9_fail_deal_connection_closed (environment : ProviderDealEnvironment)
    (deal : MinerDeal) :
  ConnectionClosed deal = true ->
  State deal = StorageDealFailing ->
  (forall response : network.Response,
     CallSendSignedResponse response ∉ (FailDeal environment deal).1)
  /\ (FailDeal environment deal).2 = (ProviderEventFailed, [])
  /\ (enter FailDeal environment deal).2 = set_State StorageDealError deal
  /\ State (enter FailDeal environment deal).2 = StorageDealError
  /\ Message (enter FailDeal environment deal).2 = Message deal.
Proof.
  intros Hclosed Hstate.
  assert (Hfail : FailDeal environment deal = (deletions deal, (ProviderEventFailed, []))).
  { unfold FailDeal. rewrite Hclosed. reflexivity. }
  assert (Henter : (enter FailDeal environment deal).2 = set_State StorageDealError deal).
  { unfold enter. rewrite Hfail. cbn [fst snd].
    rewrite (fire_Failed deal Hstate). reflexivity. }
  rewrite Henter, Hfail. cbn [fst snd]. repeat split; try reflexivity.
  intros response Hin. unfold deletions in Hin.
  destruct (String.eqb (PiecePath deal) ""), (String.eqb (MetadataPath deal) "");
    cbn in Hin;
    repeat (apply elem_of_cons in Hin as [Hin | Hin]; [discriminate Hin|]);
    inversion Hin.
Qed.

Lemma C9_witness :
  let environment :=
    providerstates_test.fakeEnvironment_env
      (providerstates_test.makeEnvironment providerstates_test.noNodeParams
         providerstates_test.skipsResponse_environmentParams) in
  let deal :=
    providerstates_test.makeDeal StorageDealFailing
      providerstates_test.skipsResponse_dealParams in
  ConnectionClosed deal = true
  /\ SendSignedResponse environment
       {| network.State := StorageDealFailing; network.Message := "";
          network.Proposal := "proposalCid"; network.PublishMessage := None |}
     = Some "could not send"
  /\ (FailDeal environment deal).1 = []
  /\ State (enter FailDeal environment deal).2 = StorageDealError
  /\ Message (enter FailDeal environment deal).2 = "".
Proof.
  cbv zeta. split; [reflexivity|]. split; [reflexivity|].
  split; [reflexivity|].
  pose proof (C9_fail_deal_connection_closed
                (providerstates_test.fakeEnvironment_env
                   (providerstates_test.makeEnvironment
                      providerstates_test.noNodeParams
                      providerstates_test.skipsResponse_environmentParams))
                (providerstates_test.makeDeal StorageDealFailing
                   providerstates_test.skipsResponse_dealParams)
                eq_refl eq_refl) as (_ & _ & _ & Hstate & Hmsg).
  split; [exact Hstate | exact Hmsg].
Defined.

(** * Further properties of the provider table *)

(** A property of records that every accepted event keeps holds at the
    end of every run. *)
Lemma run_preserves (P : MinerDeal -> Prop) :
  (forall evt deal deal', P deal -> Apply evt deal = inr deal' -> P deal') ->
  forall evts visited deal, P deal -> P (run visited deal evts).2.
Proof.
  intros Hstep evts. induction evts as [|evt rest IH]; intros visited deal HP.
  - exact HP.
  - cbn [run]. destruct (Apply evt deal) as [diag|deal'] eqn:Happly.
    + apply IH. exact HP.
    + apply IH. eapply Hstep; eauto.
Qed.

(** X1: no two rows of the provider table declare the same event, and
    the event processor is therefore built from it without a
    diagnostic. *)
Theorem X1_provider_events_distinct :
  NoDup (map fsm.name ProviderEvents)
  /\ exists ep, eventProcessor = inr ep.
Proof.
  split; [|exact eventProcessor_built].
  apply (bool_decide_unpack _). vm_compute. exact I.
Qed.

(** The states an accepted event can leave and enter. *)
Lemma Apply_states (n : ProviderEvent) (args : list Arg)
    (deal deal' : MinerDeal) :
  Apply (n, args) deal = inr deal' ->
  lifecycleRank (State deal') <> 0
  /\ (n <> ProviderEventNodeErrored ->
      lifecycleRank (State deal) < lifecycleRank (State deal'))
  /\ (failed (State deal) = true -> failed (State deal') = true).
Proof.
  rewrite Apply_unfold.
  destruct deal as [cdp pcid afc pbc mnr cl s pp mp cc msg rf did].
  destruct n, s; vm_compute; intros H; try discriminate H;
    destruct args as [|[?|?|?|?] [|[?|?|?|?] [|? ?]]]; try discriminate H;
    injection H as <-;
    (split; [discriminate|]; split;
     [ intros Hn; first [ contradiction Hn; reflexivity | vm_compute; lia ]
     | intros Hf; first [ reflexivity | discriminate Hf ] ]).
Qed.

(** X2: no accepted event moves a record into [StorageDealUnknown] or
    into one of the states of the client side; the states the table
    enters are the fifteen states of the provider's life of a deal. *)
Theorem X2_destinations_are_provider_states (evt : ProviderEvent * list Arg)
    (deal deal' : MinerDeal) :
  Apply evt deal = inr deal' ->
  State deal' ∉ [StorageDealUnknown; StorageDealProposalNotFound;
                 StorageDealProposalRejected; StorageDealNotFound;
                 StorageDealFundsEnsured; StorageDealEnsureClientFunds;
                 StorageDealClientFunding].
Proof.
  destruct evt as [n args]. intros Happly Hin.
  destruct (Apply_states _ _ _ _ Happly) as (Hrank & _).
  apply Hrank.
  repeat (apply elem_of_cons in Hin as [-> | Hin]; [reflexivity|]).
  inversion Hin.
Qed.

Lemma X2_witness :
  State (set_State StorageDealValidating
           (providerstates_test.makeDeal StorageDealUnknown
              providerstates_test.noDealParams))
  ∉ [StorageDealUnknown; StorageDealProposalNotFound;
     StorageDealProposalRejected; StorageDealNotFound;
     StorageDealFundsEnsured; StorageDealEnsureClientFunds;
     StorageDealClientFunding].
Proof.
  apply (X2_destinations_are_provider_states (ProviderEventOpen, [])
           (providerstates_test.makeDeal StorageDealUnknown
              providerstates_test.noDealParams)).
  vm_compute. reflexivity.
Defined.

(** X3: every accepted event other than the node-errored event moves
    the record strictly forward in the life of a deal, so at most
    fourteen events that are not node-errored events are accepted in a
    run, whatever is fired. *)
Theorem X3_never_backward (deal : MinerDeal)
    (evts : list (ProviderEvent * list Arg)) :
  (forall n args deal',
     Apply (n, args) deal = inr deal' ->
     n <> ProviderEventNodeErrored ->
     lifecycleRank (State deal) < lifecycleRank (State deal'))
  /\ (Forall (fun evt => evt.1 <> ProviderEventNodeErrored) evts ->
      length (accepted deal evts) + lifecycleRank (State deal) <= 14).
Proof.
  split.
  - intros n args deal' Happly Hn.
    destruct (Apply_states _ _ _ _ Happly) as (_ & Hlt & _). auto.
  - revert deal. induction evts as [|[n args] rest IH]; intros deal Hall.
    + cbn. destruct (State deal); vm_compute; lia.
    + apply Forall_cons in Hall as [Hn Hrest]. cbn [accepted].
      destruct (Apply (n, args) deal) as [diag|deal'] eqn:Happly.
      * apply IH. exact Hrest.
      * destruct (Apply_states _ _ _ _ Happly) as (_ & Hlt & _).
        specialize (Hlt Hn). specialize (IH deal' Hrest). cbn [length]. lia.
Qed.

Lemma X3_witness :
  length (accepted
            (providerstates_test.makeDeal StorageDealUnknown
               providerstates_test.noDealParams)
            [(ProviderEventOpen, []); (ProviderEventDealAccepted, []);
             (ProviderEventOpen, [])])
  + lifecycleRank StorageDealUnknown <= 14.
Proof.
  apply (X3_never_backward
           (providerstates_test.makeDeal StorageDealUnknown
              providerstates_test.noDealParams)
           [(ProviderEventOpen, []); (ProviderEventDealAccepted, []);
            (ProviderEventOpen, [])]).
  repeat constructor; discriminate.
Defined.

(** What an accepted event keeps of a record: the proposal and the
    identities always, the closed connection once it is closed, and the
    identifiers of the funding and publish messages and of the deal
    outside the one state in which each is assigned. *)
Lemma Apply_fields (n : ProviderEvent) (args : list Arg)
    (deal deal' : MinerDeal) :
  Apply (n, args) deal = inr deal' ->
  (ClientDealProposal deal' = ClientDealProposal deal
   /\ ProposalCid deal' = ProposalCid deal
   /\ Miner deal' = Miner deal
   /\ Client deal' = Client deal
   /\ Ref deal' = Ref deal)
  /\ (ConnectionClosed deal = true -> ConnectionClosed deal' = true)
  /\ (State deal <> StorageDealEnsureProviderFunds ->
      AddFundsCid deal' = AddFundsCid deal)
  /\ (State deal <> StorageDealPublish -> PublishCid deal' = PublishCid deal)
  /\ (State deal <> StorageDealPublishing -> DealID deal' = DealID deal).
Proof.
  rewrite Apply_unfold.
  destruct deal as [cdp pcid afc pbc mnr cl s pp mp cc msg rf did].
  destruct n, s; vm_compute; intros H; try discriminate H;
    destruct args as [|[?|?|?|?] [|[?|?|?|?] [|? ?]]]; try discriminate H;
    injection H as <-;
    (split; [repeat split|]; split; [intros Hc; first [reflexivity | exact Hc]|];
     repeat split; intros Hs; first [reflexivity | contradiction Hs; reflexivity]).
Qed.

(** X4: whatever events are fired against a record, its signed
    proposal, its proposal identifier, the two peer identities and its
    data reference stay as they were. *)
Theorem X4_proposal_never_modified (visited : list StorageDealStatus)
    (deal : MinerDeal) (evts : list (ProviderEvent * list Arg)) :
  ClientDealProposal (run visited deal evts).2 = ClientDealProposal deal
  /\ ProposalCid (run visited deal evts).2 = ProposalCid deal
  /\ Miner (run visited deal evts).2 = Miner deal
  /\ Client (run visited deal evts).2 = Client deal
  /\ Ref (run visited deal evts).2 = Ref deal.
Proof.
  apply (run_preserves
           (fun d => ClientDealProposal d = ClientDealProposal deal
                     /\ ProposalCid d = ProposalCid deal
                     /\ Miner d = Miner deal
                     /\ Client d = Client deal
                     /\ Ref d = Ref deal)).
  - intros [n args] d d' (H1 & H2 & H3 & H4 & H5) Happly.
    destruct (Apply_fields _ _ _ _ Happly) as ((E1 & E2 & E3 & E4 & E5) & _).
    rewrite E1, E2, E3, E4, E5. auto.
  - auto.
Qed.

(** X5: no event reopens a connection: once [ConnectionClosed] is true
    it is true after every run. *)
Theorem X5_connection_stays_closed (visited : list StorageDealStatus)
    (deal : MinerDeal) (evts : list (ProviderEvent * list Arg)) :
  ConnectionClosed deal = true ->
  ConnectionClosed (run visited deal evts).2 = true.
Proof.
  apply (run_preserves (fun d => ConnectionClosed d = true)).
  intros [n args] d d' Hc Happly.
  destruct (Apply_fields _ _ _ _ Happly) as (_ & Hkeep & _). auto.
Qed.

Lemma X5_witness :
  ConnectionClosed
    (run [] (providerstates_test.makeDeal StorageDealFailing
               providerstates_test.skipsResponse_dealParams)
       [(ProviderEventFailed, []);
        (ProviderEventNodeErrored, [ArgError "node down"])]).2 = true.
Proof.
  apply (X5_connection_stays_closed []
           (providerstates_test.makeDeal StorageDealFailing
              providerstates_test.skipsResponse_dealParams)).
  reflexivity.
Defined.

(** A record that is past a state of the life of a deal stays past
    it. *)
Lemma past_preserved (k : nat) (evt : ProviderEvent * list Arg)
    (deal deal' : MinerDeal) :
  k < 13 ->
  k < lifecycleRank (State deal) ->
  Apply evt deal = inr deal' ->
  k < lifecycleRank (State deal').
Proof.
  intros Hk Hpast Happly. destruct evt as [n args].
  destruct (Apply_states _ _ _ _ Happly) as (_ & Hlt & _).
  destruct (decide (n = ProviderEventNodeErrored)) as [-> | Hn].
  - assert (Hfail : State deal' = StorageDealFailing).
    { rewrite Apply_unfold, destinationOf_NodeErrored in Happly.
      destruct (callAction ProviderEventNodeErrored deal args) as [[d|]|];
        try discriminate Happly.
      injection Happly as <-. reflexivity. }
    rewrite Hfail. cbn. lia.
  - specialize (Hlt Hn). lia.
Qed.

(** X6: the identifiers a record is given are not overwritten. After
    the funding-initiated event has recorded the funding message in
    [StorageDealEnsureProviderFunds], after the publish-initiated event
    has recorded the publish message in [StorageDealPublish], and after
    the deal-published event has recorded the deal id in
    [StorageDealPublishing], the recorded identifier is the record's
    after every later run of events. *)
Theorem X6_identifiers_not_overwritten (deal : MinerDeal)
    (evts : list (ProviderEvent * list Arg)) :
  (forall mcid : cid.Cid,
     State deal = StorageDealEnsureProviderFunds ->
     AddFundsCid
       (run [] deal ((ProviderEventFundingInitiated, [ArgCid mcid]) :: evts)).2
     = Some mcid)
  /\ (forall publishCid : cid.Cid,
        State deal = StorageDealPublish ->
        PublishCid
          (run [] deal
             ((ProviderEventDealPublishInitiated, [ArgCid publishCid]) :: evts)).2
        = Some publishCid)
  /\ (forall dealID : abi.DealID,
        State deal = StorageDealPublishing ->
        DealID
          (run [] deal ((ProviderEventDealPublished, [ArgDealID dealID]) :: evts)).2
        = dealID).
Proof.
  assert (Hkeep : forall (k : nat) (proj : MinerDeal -> Prop) (d : MinerDeal)
                         (visited : list StorageDealStatus),
    k < 13 ->
    (forall evt d1 d2, k < lifecycleRank (State d1) ->
       Apply evt d1 = inr d2 -> proj d1 -> proj d2) ->
    k < lifecycleRank (State d) -> proj d -> proj (run visited d evts).2).
  { intros k proj d visited Hk Hstep Hpast Hproj.
    apply (run_preserves (fun x => k < lifecycleRank (State x) /\ proj x));
      [|split; assumption].
    intros evt d1 d2 [Hp1 Hq1] Happly. split.
    - eapply past_preserved; eauto.
    - eapply Hstep; eauto. }
  split; [|split].
  - intros mcid Hstate. cbn [run].
    assert (Happly : Apply (ProviderEventFundingInitiated, [ArgCid mcid]) deal
                     = inr (set_State StorageDealProviderFunding
                              (set_AddFundsCid (Some mcid) deal)))
      by (rewrite Apply_unfold, Hstate; reflexivity).
    rewrite Happly.
    apply (Hkeep 5 (fun d => AddFundsCid d = Some mcid)); [lia| |cbn; lia|reflexivity].
    intros [n args] d1 d2 Hpast Happly' Hd1.
    destruct (Apply_fields _ _ _ _ Happly') as (_ & _ & Hadd & _).
    rewrite Hadd; [exact Hd1|]. intros Heq. rewrite Heq in Hpast. cbn in Hpast. lia.
  - intros publishCid Hstate. cbn [run].
    assert (Happly : Apply (ProviderEventDealPublishInitiated, [ArgCid publishCid]) deal
                     = inr (set_State StorageDealPublishing
                              (set_PublishCid (Some publishCid) deal)))
      by (rewrite Apply_unfold, Hstate; reflexivity).
    rewrite Happly.
    apply (Hkeep 7 (fun d => PublishCid d = Some publishCid)); [lia| |cbn; lia|reflexivity].
    intros [n args] d1 d2 Hpast Happly' Hd1.
    destruct (Apply_fields _ _ _ _ Happly') as (_ & _ & _ & Hpub & _).
    rewrite Hpub; [exact Hd1|]. intros Heq. rewrite Heq in Hpast. cbn in Hpast. lia.
  - intros dealID Hstate. cbn [run].
    assert (Happly : Apply (ProviderEventDealPublished, [ArgDealID dealID]) deal
                     = inr (set_State StorageDealStaged
                              (set_DealID dealID (set_ConnectionClosed true deal))))
      by (rewrite Apply_unfold, Hstate; reflexivity).
    rewrite Happly.
    apply (Hkeep 8 (fun d => DealID d = dealID)); [lia| |cbn; lia|reflexivity].
    intros [n args] d1 d2 Hpast Happly' Hd1.
    destruct (Apply_fields _ _ _ _ Happly') as (_ & _ & _ & _ & Hid).
    rewrite Hid; [exact Hd1|]. intros Heq. rewrite Heq in Hpast. cbn in Hpast. lia.
Qed.

Lemma X6_witness :
  AddFundsCid
    (run [] (providerstates_test.makeDeal StorageDealEnsureProviderFunds
               providerstates_test.noDealParams)
       [(ProviderEventFundingInitiated, [ArgCid "first"]);
        (ProviderEventFundingInitiated, [ArgCid "second"]);
        (ProviderEventFunded, [])]).2
  = Some "first".
Proof.
  apply (X6_identifiers_not_overwritten
           (providerstates_test.makeDeal StorageDealEnsureProviderFunds
              providerstates_test.noDealParams)
           [(ProviderEventFundingInitiated, [ArgCid "second"]);
            (ProviderEventFunded, [])]).
  reflexivity.
Defined.

(** X7: a failed deal stays failed: from [StorageDealFailing] and
    [StorageDealError] every run of events ends in one of these two
    states. *)
Theorem X7_failed_stays_failed (visited : list StorageDealStatus)
    (deal : MinerDeal) (evts : list (ProviderEvent * list Arg)) :
  failed (State deal) = true ->
  failed (State (run visited deal evts).2) = true.
Proof.
  apply (run_preserves (fun d => failed (State d) = true)).
  intros [n args] d d' Hf Happly.
  destruct (Apply_states _ _ _ _ Happly) as (_ & _ & Hkeep). auto.
Qed.

Lemma X7_witness :
  failed
    (State (run [] (providerstates_test.makeDeal StorageDealError
                      providerstates_test.noDealParams)
              [(ProviderEventNodeErrored, [ArgError "node down"]);
               (ProviderEventDealCompleted, [])]).2) = true.
Proof.
  apply (X7_failed_stays_failed []
           (providerstates_test.makeDeal StorageDealError
              providerstates_test.noDealParams)).
  reflexivity.
Defined.

(** ** The way to completion *)

(** What an accepted event that leaves the record in a state that is not
    failed has done: none of the states on the way to completion has
    been skipped, a record from [StorageDealStaged] on has its connection
    closed, and a record from [StorageDealPublishing] on has a publish
    message. *)
Lemma Apply_pipeline (n : ProviderEvent) (args : list Arg)
    (deal deal' : MinerDeal) :
  Apply (n, args) deal = inr deal' ->
  failed (State deal') = false ->
  (forall m, In m pipeline ->
     lifecycleRank m <= lifecycleRank (State deal') ->
     m = State deal' \/ lifecycleRank m <= lifecycleRank (State deal))
  /\ (9 <= lifecycleRank (State deal') ->
      ConnectionClosed deal' = true
      \/ (9 <= lifecycleRank (State deal)
          /\ ConnectionClosed deal' = ConnectionClosed deal))
  /\ (8 <= lifecycleRank (State deal') ->
      is_Some (PublishCid deal')
      \/ (8 <= lifecycleRank (State deal)
          /\ PublishCid deal' = PublishCid deal)).
Proof.
  rewrite Apply_unfold.
  destruct deal as [cdp pcid afc pbc mnr cl s pp mp cc msg rf did].
  destruct n, s; vm_compute; intros H; try discriminate H;
    destruct args as [|[?|?|?|?] [|[?|?|?|?] [|? ?]]]; try discriminate H;
    injection H as <-; intros Hf; try discriminate Hf;
    (split;
     [ intros m Hin Hle;
       repeat (destruct Hin as [<- | Hin];
               [first [left; reflexivity | right; lia | exfalso; lia]|]);
       contradiction Hin
     | split;
       [ intros Hle;
         first [ left; reflexivity | right; split; [lia | reflexivity]
               | exfalso; lia ]
       | intros Hle;
         first [ left; eexists; reflexivity | right; split; [lia | reflexivity]
               | exfalso; lia ] ] ]).
Qed.

Lemma healthy_invariant_step (message : string)
    (visited : list StorageDealStatus) (evt : ProviderEvent * list Arg)
    (deal deal' : MinerDeal) :
  healthy_invariant message visited deal ->
  Apply evt deal = inr deal' ->
  healthy_invariant message (State deal' :: visited) deal'.
Proof.
  intros Hinv Happly Hf'. destruct evt as [n args].
  destruct (Apply_states _ _ _ _ Happly) as (_ & _ & Htrap).
  assert (Hf : failed (State deal) = false).
  { destruct (failed (State deal)); [|reflexivity].
    rewrite Htrap in Hf'; [discriminate Hf' | reflexivity]. }
  destruct (Hinv Hf) as (Hmsg & Hvisited & Hclosed & Hpub).
  destruct (Apply_pipeline _ _ _ _ Happly Hf') as (Hnext & Hcc & Hpc).
  split; [|split; [|split]].
  - destruct (Apply_message _ _ _ _ Happly) as [(Hsame & _) | (_ & [Hs | Hs])].
    + rewrite Hsame. exact Hmsg.
    + rewrite Hs in Hf'. discriminate Hf'.
    + rewrite Hs in Hf'. discriminate Hf'.
  - intros m Hin Hle. apply elem_of_cons.
    destruct (Hnext m Hin Hle) as [-> | Hle']; [left; reflexivity|].
    right. apply Hvisited; assumption.
  - intros Hle. destruct (Hcc Hle) as [Hc | [Hle' Hc]]; [exact Hc|].
    rewrite Hc. apply Hclosed. exact Hle'.
  - intros Hle. destruct (Hpc Hle) as [Hp | [Hle' Hp]]; [exact Hp|].
    rewrite Hp. apply Hpub. exact Hle'.
Qed.

Lemma healthy_invariant_run (message : string)
    (evts : list (ProviderEvent * list Arg)) :
  forall (visited : list StorageDealStatus) (deal : MinerDeal),
    healthy_invariant message visited deal ->
    healthy_invariant message (run visited deal evts).1 (run visited deal evts).2.
Proof.
  induction evts as [|evt rest IH]; intros visited deal Hinv; [exact Hinv|].
  cbn [run]. destruct (Apply evt deal) as [diag|deal'] eqn:Happly.
  - apply IH. exact Hinv.
  - apply IH. eapply healthy_invariant_step; eauto.
Qed.

(** X8: for a record created in [StorageDealUnknown], whatever events
    are fired: while the record has not failed its message is the one it
    was created with; and when it is in [StorageDealCompleted] it has
    entered every state of the way to completion (validation, acceptance,
    funding, publication, staging, sealing, activation), its connection
    is closed and it has a publish message. *)
Theorem X8_completed_went_all_the_way (deal0 : MinerDeal)
    (evts : list (ProviderEvent * list Arg)) :
  State deal0 = StorageDealUnknown ->
  let reached := run [] deal0 evts in
  (failed (State reached.2) = false -> Message reached.2 = Message deal0)
  /\ (State reached.2 = StorageDealCompleted ->
      Forall (fun m => m ∈ reached.1) pipeline
      /\ ConnectionClosed reached.2 = true
      /\ is_Some (PublishCid reached.2)).
Proof.
  intros Hstate reached.
  assert (Hinit : healthy_invariant (Message deal0) [] deal0).
  { intros _. rewrite Hstate. split; [reflexivity|].
    split; [|split]; cbn.
    - intros m Hin Hle. exfalso.
      repeat (destruct Hin as [<- | Hin]; [cbn in Hle; lia|]). exact Hin.
    - lia.
    - lia. }
  pose proof (healthy_invariant_run (Message deal0) evts [] deal0 Hinit) as Hinv.
  fold reached in Hinv. split.
  - intros Hf. apply Hinv. exact Hf.
  - intros Hc.
    assert (Hf : failed (State reached.2) = false) by (rewrite Hc; reflexivity).
    destruct (Hinv Hf) as (_ & Hvisited & Hclosed & Hpub).
    rewrite Hc in Hvisited, Hclosed, Hpub. split; [|split].
    + apply Forall_forall. intros m Hin. apply Hvisited.
      * apply list_elem_of_In. exact Hin.
      * apply list_elem_of_In in Hin. revert Hin. unfold pipeline. cbn.
        intros Hin. repeat (destruct Hin as [<- | Hin]; [cbn; lia|]).
        contradiction Hin.
    + apply Hclosed. cbn. lia.
    + apply Hpub. cbn. lia.
Qed.

Lemma X8_witness :
  let reached :=
    run [] (providerstates_test.makeDeal StorageDealUnknown
              providerstates_test.noDealParams)
      [(ProviderEventOpen, []);
       (ProviderEventDealAccepted, []);
       (ProviderEventWaitingForManualData, []);
       (ProviderEventVerifiedData, [ArgPath "file.txt"; ArgPath "metadataPath.txt"]);
       (ProviderEventFunded, []);
       (ProviderEventDealPublishInitiated, [ArgCid "publishCid"]);
       (ProviderEventDealPublished, [ArgDealID 42%N]);
       (ProviderEventDealHandedOff, []);
       (ProviderEventDealActivated, []);
       (ProviderEventDealCompleted, [])] in
  State reached.2 = StorageDealCompleted
  /\ Message reached.2 = ""
  /\ Forall (fun m => m ∈ reached.1) pipeline
  /\ ConnectionClosed reached.2 = true.
Proof.
  cbv zeta.
  pose proof (X8_completed_went_all_the_way
                (providerstates_test.makeDeal StorageDealUnknown
                   providerstates_test.noDealParams)
                [(ProviderEventOpen, []);
                 (ProviderEventDealAccepted, []);
                 (ProviderEventWaitingForManualData, []);
                 (ProviderEventVerifiedData,
                  [ArgPath "file.txt"; ArgPath "metadataPath.txt"]);
                 (ProviderEventFunded, []);
                 (ProviderEventDealPublishInitiated, [ArgCid "publishCid"]);
                 (ProviderEventDealPublished, [ArgDealID 42%N]);
                 (ProviderEventDealHandedOff, []);
                 (ProviderEventDealActivated, []);
                 (ProviderEventDealCompleted, [])] eq_refl) as [Hmsg Hdone].
  cbv zeta in Hmsg, Hdone.
  assert (Hstate :
    State (run [] (providerstates_test.makeDeal StorageDealUnknown
                     providerstates_test.noDealParams)
             [(ProviderEventOpen, []);
              (ProviderEventDealAccepted, []);
              (ProviderEventWaitingForManualData, []);
              (ProviderEventVerifiedData,
               [ArgPath "file.txt"; ArgPath "metadataPath.txt"]);
              (ProviderEventFunded, []);
              (ProviderEventDealPublishInitiated, [ArgCid "publishCid"]);
              (ProviderEventDealPublished, [ArgDealID 42%N]);
              (ProviderEventDealHandedOff, []);
              (ProviderEventDealActivated, []);
              (ProviderEventDealCompleted, [])]).2 = StorageDealCompleted)
    by (vm_compute; reflexivity).
  split; [exact Hstate|]. split.
  - apply Hmsg. rewrite Hstate. reflexivity.
  - destruct (Hdone Hstate) as (Hall & Hclosed & _). split; assumption.
Defined.

(** ** State entry functions and the table *)

(** The state an accepted event enters is the destination the table
    gives for the event and the state of the record. *)
Lemma Apply_destination (n : ProviderEvent) (args : list Arg)
    (deal deal' : MinerDeal) :
  Apply (n, args) deal = inr deal' ->
  exists destination,
    destinationOf n (State deal) = Some destination
    /\ forall s, destination = Some s -> State deal' = s.
Proof.
  rewrite Apply_unfold.
  destruct (destinationOf n (State deal)) as [destination|]; [|discriminate].
  destruct (callAction n deal args) as [[d|]|]; try discriminate.
  intros H. injection H as <-. exists destination. split; [reflexivity|].
  intros s ->. reflexivity.
Qed.

(** Every destination of the table is a state: no row leaves the state
    as it is; and it is a finality state, a state with a state entry
    function, or one of the two states of waiting for data. *)
Lemma destination_handled (n : ProviderEvent) (s : StorageDealStatus)
    (destination : option StorageDealStatus) :
  destinationOf n s = Some destination ->
  exists s', destination = Some s'
    /\ (In s' ProviderFinalityStates
        \/ is_Some (ProviderStateEntryFuncs !! s')
        \/ s' = StorageDealTransferring
        \/ s' = StorageDealWaitingForData).
Proof.
  destruct n, s;
    match goal with
    | |- destinationOf ?N ?S = _ -> _ =>
        let v := eval vm_compute in (destinationOf N S) in
        replace (destinationOf N S) with v by (vm_compute; reflexivity)
    end;
    intros H; try discriminate H; injection H as <-;
    eexists; (split; [reflexivity|]);
    first [ left; cbn; tauto
          | right; left; vm_compute; eexists; reflexivity
          | right; right; left; reflexivity
          | right; right; right; reflexivity ].
Qed.

(** X9: no finality state has a state entry function, and every state an
    accepted event enters is a finality state, has a state entry
    function, or is one of the two states in which the provider waits
    for data, [StorageDealTransferring] and [StorageDealWaitingForData]. *)
Theorem X9_entered_states_are_handled (evt : ProviderEvent * list Arg)
    (deal deal' : MinerDeal) :
  Forall (fun s => ProviderStateEntryFuncs !! s = None) ProviderFinalityStates
  /\ (Apply evt deal = inr deal' ->
      IsTerminated deal' = true
      \/ is_Some (ProviderStateEntryFuncs !! State deal')
      \/ State deal' = StorageDealTransferring
      \/ State deal' = StorageDealWaitingForData).
Proof.
  split.
  - repeat constructor.
  - destruct evt as [n args]. intros Happly.
    destruct (Apply_destination _ _ _ _ Happly) as (destination & Hdest & Hstate).
    destruct (destination_handled _ _ _ Hdest) as (s' & -> & Hhandled).
    rewrite (Hstate s' eq_refl).
    destruct Hhandled as [Hfinal | Hrest]; [left | right; exact Hrest].
    unfold IsTerminated, fsm.IsTerminated. rewrite (Hstate s' eq_refl).
    cbn in Hfinal. destruct Hfinal as [<- | [<- | []]]; reflexivity.
Qed.

Lemma X9_witness :
  is_Some (ProviderStateEntryFuncs !! StorageDealValidating).
Proof.
  destruct (X9_entered_states_are_handled (ProviderEventOpen, [])
              (providerstates_test.makeDeal StorageDealUnknown
                 providerstates_test.noDealParams)
              (set_State StorageDealValidating
                 (providerstates_test.makeDeal StorageDealUnknown
                    providerstates_test.noDealParams)))
    as [_ Hentered].
  destruct (Hentered ltac:(vm_compute; reflexivity))
    as [H | [H | [H | H]]]; [discriminate H | exact H | discriminate H | discriminate H].
Defined.




(** ** Events without a row *)

(** The table gives event [N] a destination from state [S]: this
    contradicts [H], which says that it gives none from any state. *)
Ltac used_at H N S :=
  let v := eval vm_compute in (destinationOf N S) in
  match v with
  | Some _ =>
      let E := fresh "E" in
      assert (E : destinationOf N S = v) by (vm_compute; reflexivity);
      rewrite (H S) in E; discriminate E
  end.

Ltac used H N :=
  first [ used_at H N StorageDealUnknown
        | used_at H N StorageDealValidating
        | used_at H N StorageDealProposalAccepted
        | used_at H N StorageDealTransferring
        | used_at H N StorageDealVerifyData
        | used_at H N StorageDealEnsureProviderFunds
        | used_at H N StorageDealPublish
        | used_at H N StorageDealPublishing
        | used_at H N StorageDealStaged
        | used_at H N StorageDealSealing
        | used_at H N StorageDealActive
        | used_at H N StorageDealFailing ].

(** X19: of the provider events, exactly three are in no row of the
    table, the insufficient-funds, manual-data-received and restart
    events: the table has no destination for them from any state, and
    firing one of them is rejected whatever the record and the
    arguments. Every other event has a state from which it is
    accepted. *)
Theorem X19_events_without_row (n : ProviderEvent) :
  ((forall s, destinationOf n s = None) <->
     n = ProviderEventInsufficientFunds
     \/ n = ProviderEventManualDataReceived
     \/ n = ProviderEventRestart)
  /\ ((forall s, destinationOf n s = None) ->
      forall deal args,
        fire (n, args) deal =
          (deal, Some (fsm.InvalidTransition (State deal) n))).
Proof.
  split.
  - split.
    + intros H.
      destruct n;
        first [ left; reflexivity
              | right; left; reflexivity
              | right; right; reflexivity
              | exfalso;
                match goal with
                | H : forall s, destinationOf ?N s = None |- _ => used H N
                end ].
    + intros [-> | [-> | ->]] s; destruct s; vm_compute; reflexivity.
  - intros H deal args. unfold fire. rewrite Apply_unfold, H. reflexivity.
Qed.

Lemma X19_witness :
  fire (ProviderEventManualDataReceived, [])
    (providerstates_test.makeDeal StorageDealWaitingForData
       providerstates_test.noDealParams)
  = (providerstates_test.makeDeal StorageDealWaitingForData
       providerstates_test.noDealParams,
     Some (fsm.InvalidTransition StorageDealWaitingForData
             ProviderEventManualDataReceived)).
Proof.
  apply (X19_events_without_row ProviderEventManualDataReceived).
  apply (X19_events_without_row ProviderEventManualDataReceived).
  right. left. reflexivity.
Defined.

(** * Display names and ask options *)

(** X11: every deal status has a display name in [DealStates], the name
    starts with "StorageDeal", and two statuses never share a name. *)
Theorem X11_deal_states_named (s1 s2 : StorageDealStatus) :
  (exists name, DealStates !! s1 = Some name
                /\ String.prefix "StorageDeal" name = true)
  /\ (DealStates !! s1 = DealStates !! s2 -> s1 = s2).
Proof.
  split.
  - destruct s1; eexists; (split; [vm_compute; reflexivity|reflexivity]).
  - destruct s1, s2; vm_compute; intros H; first [reflexivity | discriminate H].
Qed.

Lemma X11_witness :
  DealStates !! StorageDealError = DealStates !! StorageDealError
  /\ StorageDealError = StorageDealError.
Proof.
  split; [reflexivity|].
  apply (X11_deal_states_named StorageDealError StorageDealError).
  reflexivity.
Defined.

(** X12: every provider event has a display name in the provider's
    [ProviderEvents] map, the name starts with "ProviderEvent", and two
    events never share a name. *)
Theorem X12_provider_events_named (e1 e2 : ProviderEvent) :
  (exists name, storagemarket.ProviderEvents !! e1 = Some name
                /\ String.prefix "ProviderEvent" name = true)
  /\ (storagemarket.ProviderEvents !! e1 = storagemarket.ProviderEvents !! e2 ->
      e1 = e2).
Proof.
  split.
  - destruct e1; eexists; (split; [vm_compute; reflexivity|reflexivity]).
  - destruct e1, e2; vm_compute; intros H; first [reflexivity | discriminate H].
Qed.

Lemma X12_witness :
  storagemarket.ProviderEvents !! ProviderEventRestart
    = storagemarket.ProviderEvents !! ProviderEventRestart
  /\ ProviderEventRestart = ProviderEventRestart.
Proof.
  split; [reflexivity|].
  apply (X12_provider_events_named ProviderEventRestart ProviderEventRestart).
  reflexivity.
Defined.

(** X13: a client event has a display name in [ClientEvents] exactly
    when it is not [ClientEventRestart]; the names start with
    "ClientEvent", and two named events never share a name. *)
Theorem X13_client_events_named (e1 e2 : ClientEvent) :
  (is_Some (ClientEvents !! e1) <-> e1 <> ClientEventRestart)
  /\ (forall name, ClientEvents !! e1 = Some name ->
        String.prefix "ClientEvent" name = true)
  /\ (is_Some (ClientEvents !! e1) ->
      ClientEvents !! e1 = ClientEvents !! e2 -> e1 = e2).
Proof.
  split; [|split].
  - destruct e1; vm_compute; split;
      first [ intros _; discriminate
            | intros _; eexists; reflexivity
            | intros [x Hx]; discriminate Hx
            | intros H; contradiction H; reflexivity ].
  - destruct e1; vm_compute; intros name H; try discriminate H;
      injection H as <-; reflexivity.
  - destruct e1, e2; vm_compute; intros [x Hx] H;
      first [reflexivity | discriminate H | discriminate Hx].
Qed.

Lemma X13_witness :
  is_Some (ClientEvents !! ClientEventFailed)
  /\ ClientEventFailed = ClientEventFailed.
Proof.
  assert (Hnamed : is_Some (ClientEvents !! ClientEventFailed))
    by (vm_compute; eexists; reflexivity).
  split; [exact Hnamed|].
  apply (X13_client_events_named ClientEventFailed ClientEventFailed);
    [exact Hnamed | reflexivity].
Defined.

(** X14: the two ask options assign their own field only, they commute,
    and of two options for the same field the later one is the one that
    holds. *)
Theorem X14_ask_options (a b : abi.PaddedPieceSize) (sa : StorageAsk) :
  applyOptions [option_MinPieceSize a; option_MaxPieceSize b] sa
    = applyOptions [option_MaxPieceSize b; option_MinPieceSize a] sa
  /\ applyOptions [option_MinPieceSize a; option_MinPieceSize b] sa
     = option_MinPieceSize b sa
  /\ applyOptions [option_MaxPieceSize a; option_MaxPieceSize b] sa
     = option_MaxPieceSize b sa
  /\ MinPieceSize (applyOptions [option_MinPieceSize a; option_MaxPieceSize b] sa)
     = a
  /\ MaxPieceSize (applyOptions [option_MinPieceSize a; option_MaxPieceSize b] sa)
     = b
  /\ (forall options,
        Forall (fun option =>
                  exists size, option = option_MinPieceSize size
                               \/ option = option_MaxPieceSize size) options ->
        let sa' := applyOptions options sa in
        Price sa' = Price sa /\ AskMiner sa' = AskMiner sa
        /\ Timestamp sa' = Timestamp sa /\ Expiry sa' = Expiry sa
        /\ SeqNo sa' = SeqNo sa).
Proof.
  repeat (split; [reflexivity|]).
  intros options Hall. revert sa.
  induction Hall as [|option rest (size & [-> | ->]) Hrest IH]; intros sa.
  - cbn. auto.
  - cbn. apply (IH (option_MinPieceSize size sa)).
  - cbn. apply (IH (option_MaxPieceSize size sa)).
Qed.

Lemma X14_witness :
  Price (applyOptions [option_MinPieceSize 256%N; option_MaxPieceSize 1048576%N]
           providerstates_test.defaultAsk) = 10000000%Z.
Proof.
  apply (X14_ask_options 0%N 0%N providerstates_test.defaultAsk).
  repeat constructor; eexists; [left | right]; reflexivity.
Defined.

(** * The fake storage market state *)

(** The balance of an address after funds are added to it. *)
Lemma Balance_AddFunds (sma : testnodes.StorageMarketState)
    (addr : address.Address) (amount : abi.TokenAmount) :
  Available (testnodes.Balance (testnodes.AddFunds addr amount sma) addr)
    = (Available (testnodes.Balance sma addr) + amount)%Z.
Proof.
  unfold testnodes.Balance, testnodes.AddFunds. cbn.
  destruct (testnodes.Balances sma !! addr) as [existing|];
    rewrite lookup_insert_eq; reflexivity.
Qed.

(** X15: after [AddFunds] the available balance of the address is its
    balance before plus the amount, an address without funds counting
    for zero; the balance of every other address, and the chain head of
    the state, are as before; nothing is ever locked. *)
Theorem X15_add_funds_balance (sma : testnodes.StorageMarketState)
    (addr other : address.Address) (amount : abi.TokenAmount) :
  Available (testnodes.Balance (testnodes.AddFunds addr amount sma) addr)
    = (Available (testnodes.Balance sma addr) + amount)%Z
  /\ (testnodes.Balances sma !! addr = None ->
      Available (testnodes.Balance sma addr) = 0%Z)
  /\ (other <> addr ->
      testnodes.Balance (testnodes.AddFunds addr amount sma) other
        = testnodes.Balance sma other)
  /\ testnodes.StateKey (testnodes.AddFunds addr amount sma)
       = testnodes.StateKey sma
  /\ Locked (testnodes.Balance sma addr) = 0%Z.
Proof.
  unfold testnodes.Balance, testnodes.AddFunds. cbn.
  split; [|split; [|split; [|split]]].
  - destruct (testnodes.Balances sma !! addr) as [existing|];
      rewrite lookup_insert_eq; reflexivity.
  - intros ->. reflexivity.
  - intros Hne.
    destruct (testnodes.Balances sma !! addr) as [existing|];
      rewrite lookup_insert_ne by congruence; reflexivity.
  - reflexivity.
  - destruct (testnodes.Balances sma !! addr); reflexivity.
Qed.

Lemma X15_witness :
  testnodes.Balance
    (testnodes.AddFunds "TestAddress" 5%Z testnodes.NewStorageMarketState)
    "TestAddress2"
  = testnodes.Balance testnodes.NewStorageMarketState "TestAddress2".
Proof.
  apply (X15_add_funds_balance testnodes.NewStorageMarketState
           "TestAddress" "TestAddress2" 5%Z).
  discriminate.
Defined.

(** X16: funds added accumulate, and the order of two additions does
    not matter: the states are the same. *)
Theorem X16_add_funds_commute (sma : testnodes.StorageMarketState)
    (a b : address.Address) (x y : abi.TokenAmount) :
  testnodes.AddFunds a x (testnodes.AddFunds b y sma)
    = testnodes.AddFunds b y (testnodes.AddFunds a x sma)
  /\ testnodes.AddFunds a x (testnodes.AddFunds a y sma)
     = testnodes.AddFunds a (y + x)%Z sma.
Proof.
  destruct sma as [tok epoch dealId balances].
  unfold testnodes.AddFunds. cbn. split.
  - f_equal. destruct (decide (a = b)) as [-> | Hne].
    + destruct (balances !! b) as [existing|];
        rewrite !lookup_insert_eq, !insert_insert_eq; f_equal; lia.
    + assert (Ha : forall v : Z, <[b:=v]> balances !! a = balances !! a)
        by (intros v; apply lookup_insert_ne; congruence).
      assert (Hb : forall v : Z, <[a:=v]> balances !! b = balances !! b)
        by (intros v; apply lookup_insert_ne; congruence).
      destruct (balances !! a) as [ea|] eqn:Ea;
        destruct (balances !! b) as [eb|] eqn:Eb;
        rewrite ?Ha, ?Hb, ?Ea, ?Eb;
        apply insert_insert_ne; congruence.
  - f_equal. destruct (balances !! a) as [existing|];
      rewrite !lookup_insert_eq, !insert_insert_eq; f_equal; lia.
Qed.

(** X17: [EnsureFunds] without an error leaves the address with at least
    the amount asked for: when the balance suffices it changes nothing
    and returns the undefined identifier, otherwise it adds the missing
    funds, the balance becomes the amount and the identifier is the
    node's [AddFundsCid]; a second call then changes nothing. With
    [EnsureFundsError] set it returns the error and the undefined
    identifier, and changes nothing. *)
Theorem X17_ensure_funds (f : testnodes.FakeCommonNodeFunds)
    (n : testnodes.FakeCommonNode) (addr wallet : address.Address)
    (amount : abi.TokenAmount) (tok : shared.TipSetToken) :
  let result := testnodes.FakeCommonNode_EnsureFunds f n addr wallet amount tok in
  let before := Available (testnodes.Balance (testnodes.SMState n) addr) in
  let after := Available (testnodes.Balance (testnodes.SMState result.1) addr) in
  (forall err, testnodes.EnsureFundsError f = Some err ->
     result = (n, (cid.Undef, Some err)))
  /\ (testnodes.EnsureFundsError f = None ->
      result.2.2 = None
      /\ after = Z.max before amount
      /\ (amount <= before -> result = (n, (cid.Undef, None)))%Z
      /\ (before < amount -> result.2.1 = testnodes.AddFundsCid f)%Z
      /\ testnodes.FakeCommonNode_EnsureFunds f result.1 addr wallet amount tok
         = (result.1, (cid.Undef, None))).
Proof.
  cbv zeta. unfold testnodes.FakeCommonNode_EnsureFunds. split.
  - intros err ->. reflexivity.
  - intros ->.
    destruct (Z.ltb_spec
                (Available (testnodes.Balance (testnodes.SMState n) addr))
                amount) as [Hlt | Hge].
    + unfold testnodes.FakeCommonNode_AddFunds. cbn [fst snd].
      unfold testnodes.set_SMState. cbn [testnodes.SMState].
      pose proof (Balance_AddFunds (testnodes.SMState n) addr
                    (amount - Available (testnodes.Balance (testnodes.SMState n) addr))%Z)
        as Hbal.
      rewrite Hbal.
      replace (Available (testnodes.Balance (testnodes.SMState n) addr)
               + (amount - Available (testnodes.Balance (testnodes.SMState n) addr)))%Z
        with amount by lia.
      rewrite Z.ltb_irrefl.
      repeat split; try reflexivity; lia.
    + cbn [fst snd].
      assert (Hnlt : (Available (testnodes.Balance (testnodes.SMState n) addr)
                      <? amount)%Z = false) by (apply Z.ltb_ge; exact Hge).
      rewrite Hnlt.
      repeat split; try reflexivity; lia.
Qed.

Lemma X17_witness :
  let f := {| testnodes.AddFundsCid := "addFundsCid";
              testnodes.EnsureFundsError := None |} in
  let n := testnodes.FakeCommonNode_
             (providerstates_test.makeNode providerstates_test.noNodeParams) in
  let result :=
    testnodes.FakeCommonNode_EnsureFunds f n "TestAddress" "wallet"
      3000000%Z [] in
  Available (testnodes.Balance (testnodes.SMState n) "TestAddress") = 2000000%Z
  /\ result.2 = ("addFundsCid", None)
  /\ Available (testnodes.Balance (testnodes.SMState result.1) "TestAddress")
     = 3000000%Z.
Proof.
  cbv zeta. split; [reflexivity|].
  pose proof (X17_ensure_funds
                {| testnodes.AddFundsCid := "addFundsCid";
                   testnodes.EnsureFundsError := None |}
                (testnodes.FakeCommonNode_
                   (providerstates_test.makeNode providerstates_test.noNodeParams))
                "TestAddress" "wallet" 3000000%Z []) as [_ Hok].
  cbv zeta in Hok.
  destruct (Hok eq_refl) as (Herr & Hafter & _ & Hcid & _).
  split.
  - apply injective_projections; [apply Hcid; reflexivity | exact Herr].
  - rewrite Hafter. reflexivity.
Defined.

(** One step of [AddDeal]: the deal at the end of the deals of an
    address. *)
Lemma Deals_append {DealState : Type}
    (deals : testnodes.StorageDeals (DealState := DealState))
    (deal : StorageDeal DealState) (addr other : address.Address) :
  testnodes.Deals
    (match deals !! addr with
     | Some existing => <[addr := (existing ++ [deal])%list]> deals
     | None => <[addr := [deal]]> deals
     end) other
  = if decide (other = addr) then (testnodes.Deals deals addr ++ [deal])%list
    else testnodes.Deals deals other.
Proof.
  unfold testnodes.Deals. unfold testnodes.StorageDeals in *.
  destruct (decide (other = addr)) as [-> | Hne].
  - destruct (deals !! addr) as [existing|]; rewrite lookup_insert_eq; reflexivity.
  - destruct (deals !! addr) as [existing|];
      rewrite lookup_insert_ne by congruence; reflexivity.
Qed.

(** X18: [AddDeal] puts the deal at the end of the deals of its client
    and of its provider and leaves the deals of every other address as
    they are; when the client and the provider are the same address the
    deal is listed twice. An address without deals has the empty list. *)
Theorem X18_add_deal {DealState : Type}
    (deals : testnodes.StorageDeals (DealState := DealState))
    (deal : StorageDeal DealState) (other : address.Address) :
  let client := market.Client (DealProposal deal) in
  let provider := market.Provider (DealProposal deal) in
  (client <> provider ->
   testnodes.Deals (testnodes.AddDeal deal deals) client
     = (testnodes.Deals deals client ++ [deal])%list
   /\ testnodes.Deals (testnodes.AddDeal deal deals) provider
      = (testnodes.Deals deals provider ++ [deal])%list)
  /\ (client = provider ->
      testnodes.Deals (testnodes.AddDeal deal deals) client
        = (testnodes.Deals deals client ++ [deal; deal])%list)
  /\ (other <> client -> other <> provider ->
      testnodes.Deals (testnodes.AddDeal deal deals) other
        = testnodes.Deals deals other)
  /\ (deals !! other = None -> testnodes.Deals deals other = []).
Proof.
  cbv zeta. unfold testnodes.AddDeal. cbn [fold_left].
  split; [|split; [|split]].
  - intros Hne. rewrite !Deals_append.
    rewrite decide_False by exact Hne.
    rewrite decide_True by reflexivity.
    rewrite decide_True by reflexivity.
    rewrite decide_False by congruence.
    split; reflexivity.
  - intros Heq. rewrite <- Heq. rewrite !Deals_append.
    rewrite !decide_True by reflexivity.
    rewrite <- app_assoc. reflexivity.
  - intros Hc Hp. rewrite !Deals_append.
    rewrite !decide_False by assumption. reflexivity.
  - intros Hnone. unfold testnodes.Deals. rewrite Hnone. reflexivity.
Qed.

Lemma X18_witness :
  let deal : StorageDeal unit :=
    {| DealProposal :=
         market.Proposal
           (ClientDealProposal
              (providerstates_test.makeDeal StorageDealPublish
                 providerstates_test.noDealParams));
       DealState_ := tt |} in
  testnodes.Deals (testnodes.AddDeal deal ∅) "TestAddress" = [deal]
  /\ testnodes.Deals (testnodes.AddDeal deal ∅) "TestAddress2" = [deal].
Proof.
  cbv zeta.
  destruct (X18_add_deal ∅
              {| DealProposal :=
                   market.Proposal
                     (ClientDealProposal
                        (providerstates_test.makeDeal StorageDealPublish
                           providerstates_test.noDealParams));
                 DealState_ := tt |} "other") as (Hdistinct & _).
  cbv zeta in Hdistinct.
  destruct (Hdistinct ltac:(discriminate)) as [Hclient Hprovider].
  split; [exact Hclient | exact Hprovider].
Defined.
